(** * Session guard and route layer of the rural health tracker

    A shallow embedding of the Express route layer (the server's
    [routes.ts], in both of its copies): the two request gates
    [requireAuth] and [requireAdmin], the [/api/auth/signup],
    [/api/auth/login] and [/api/auth/logout] handlers, the routes
    registered behind the gates, and the pattern the client draws for a
    patient's QR code.

    The handlers are JavaScript: requests, bodies and user rows are plain
    objects, tests are truthiness tests, and every [await storage.f(..)] may
    throw.  The embedding keeps all three: objects are finite maps from
    property names to values, conditions go through [truthy], and handlers
    live in a state-and-exception monad over the request context. *)

From stdpp Require Import gmap strings list fin_maps.
From Stdlib Require Import ZArith Lia Ascii.

Local Open Scope Z_scope.
Local Open Scope string_scope.

(** ** JavaScript values and objects *)

Module Js.

(** The values that travel through the handlers: JSON scalars of the
    request body and the columns of a user row. *)
Inductive JsVal : Type :=
| JUndefined
| JNull
| JBool (b : bool)
| JNum (n : Z)
| JStr (s : string).

#[global] Instance JsVal_eq_dec : EqDecision JsVal.
Proof. solve_decision. Defined.

(** [!!v] *)
Definition truthy (v : JsVal) : bool :=
  match v with
  | JUndefined | JNull => false
  | JBool b => b
  | JNum n => negb (Z.eqb n 0)
  | JStr s => negb (String.eqb s "")
  end.

(** [a || b] *)
Definition js_or (a b : JsVal) : JsVal := if truthy a then a else b.

(** [a === b]; on these scalars strict equality is structural. *)
Definition strict_eq (a b : JsVal) : bool := bool_decide (a = b).

(** An object is a finite map from property names to values. *)
Abbreviation JsObj := (gmap string JsVal).

(** [o.k]: reading a property that is not there yields [undefined]. *)
Definition prop (o : JsObj) (k : string) : JsVal := default JUndefined (o !! k).

(** [const { password: _, ...userWithoutPassword } = o] *)
Definition withoutPassword (o : JsObj) : JsObj := delete "password" o.

End Js.
Import Js.

(** ** Results of awaited calls *)

(** What a rejected promise or a [throw] carries. *)
Inductive Error : Type :=
| StoreError (msg : string)
| TypeError (msg : string).

Inductive Result (A : Type) : Type :=
| Ok (a : A)
| Err (e : Error).
Arguments Ok {A} a.
Arguments Err {A} e.

(** ** The collaborators of the route layer *)

(** Modelled from the spec: the [storage] singleton imported from
    [./storage], whose module is not part of the sources.  The operations
    are the ones the handlers call; each may fail, which is how an awaited
    promise rejects.  Reads leave the store as it is; [createUser] returns
    the persisted row together with the store that holds it. *)
Class IStorage (S : Type) : Type := {
  getUser : JsVal -> S -> Result (option JsObj);
  getUserByUsername : JsVal -> S -> Result (option JsObj);
  getAllUsers : S -> Result (list JsObj);
  createUser : JsObj -> S -> Result (JsObj * S);
}.

(** The session object express-session hangs on the request. *)
Record Session : Type := { userId : JsVal }.

(** The store behind express-session (here memorystore).  Both operations
    report through a callback that receives an error or nothing. *)
Class SessionStore (T : Type) : Type := {
  store_destroy : string -> T -> T * option Error;
  store_set : string -> Session -> T -> T * option Error;
}.

(** [bcrypt.compare(data, hash)] of bcryptjs, awaited by the login route. *)
Class Bcrypt : Type := {
  bcrypt_compare : JsVal -> JsVal -> Result bool;
}.

(** The calls a handler makes on [storage], in the order it makes them. *)
Inductive StorageCall : Type :=
| CallGetUser (id : JsVal)
| CallGetUserByUsername (name : JsVal)
| CallGetAllUsers
| CallCreateUser (fields : JsObj).

(** What [res.json] is given. *)
Inductive Payload : Type :=
| Message (m : string)              (* { message: m } *)
| UserEnvelope (u : JsObj)          (* { user: u } *)
| UserJson (u : JsObj).             (* u *)

(** How a middleware or handler finishes when no error escapes it. *)
Inductive Reply : Type :=
| Sent (status : Z) (payload : Payload)   (* res.status(s).json(p) *)
| NextCalled.                             (* next() *)

(** ** The request context and the handler monad *)

Section Routes.

Context {S T : Type} `{!IStorage S} `{!SessionStore T} `{!Bcrypt}.

(** Everything a handler can read or change: the two stores, the parts
    of the request it touches, and the log of storage calls. *)
Record Ctx : Type := {
  db : S;                       (* storage *)
  sessions : T;                 (* the session store *)
  sessionID : string;           (* req.sessionID *)
  session : option Session;     (* req.session *)
  body : JsObj;                 (* req.body *)
  user : option JsObj;          (* req.user *)
  calls : list StorageCall;     (* storage calls made so far *)
}.

(** A computation that may throw and may change the context.  At the top
    of an [async] handler [Err e] is the rejected promise. *)
Definition M (A : Type) : Type := Ctx -> Result A * Ctx.

Definition ret {A} (a : A) : M A := fun c => (Ok a, c).

Definition bind {A B} (m : M A) (k : A -> M B) : M B :=
  fun c => match m c with
           | (Ok a, c') => k a c'
           | (Err e, c') => (Err e, c')
           end.

(** [try { m } catch (error) { h }] *)
Definition try_catch {A} (m : M A) (h : Error -> M A) : M A :=
  fun c => match m c with
           | (Ok a, c') => (Ok a, c')
           | (Err e, c') => h e c'
           end.

Definition logged (k : StorageCall) (c : Ctx) : Ctx :=
  {| db := db c; sessions := sessions c; sessionID := sessionID c;
     session := session c; body := body c; user := user c;
     calls := calls c ++ [k] |}.

(** [await storage.getUser(id)] *)
Definition await_getUser (id : JsVal) : M (option JsObj) :=
  fun c => (getUser id (db c), logged (CallGetUser id) c).

(** [await storage.getUserByUsername(name)] *)
Definition await_getUserByUsername (name : JsVal) : M (option JsObj) :=
  fun c => (getUserByUsername name (db c), logged (CallGetUserByUsername name) c).

(** [await storage.getAllUsers()] *)
Definition await_getAllUsers : M (list JsObj) :=
  fun c => (getAllUsers (db c), logged CallGetAllUsers c).

(** [await storage.createUser(fields)] *)
Definition await_createUser (fields : JsObj) : M JsObj :=
  fun c =>
    let c' := logged (CallCreateUser fields) c in
    match createUser fields (db c) with
    | Ok (row, db') =>
        (Ok row,
         {| db := db'; sessions := sessions c'; sessionID := sessionID c';
            session := session c'; body := body c'; user := user c';
            calls := calls c' |})
    | Err e => (Err e, c')
    end.

(** [req.session?.userId] *)
Definition session_userId (c : Ctx) : JsVal :=
  match session c with
  | Some s => userId s
  | None => JUndefined
  end.

Definition read {A} (f : Ctx -> A) : M A := fun c => (Ok (f c), c).

(** [req.user = u] *)
Definition set_req_user (u : JsObj) : M unit :=
  fun c => (Ok tt,
            {| db := db c; sessions := sessions c; sessionID := sessionID c;
               session := session c; body := body c; user := Some u;
               calls := calls c |}).

(** [req.session.destroy(cb)] of express-session: the session is taken
    off the request, the store is asked to drop it, and what the store
    reports is what [cb] receives.  Throws when there is no session. *)
Definition session_destroy : M (option Error) :=
  fun c =>
    match session c with
    | None => (Err (TypeError "Cannot read properties of undefined"), c)
    | Some _ =>
        let (t', err) := store_destroy (sessionID c) (sessions c) in
        (Ok err,
         {| db := db c; sessions := t'; sessionID := sessionID c;
            session := None; body := body c; user := user c;
            calls := calls c |})
    end.

(** [req.session.userId = v]; throws when there is no session. *)
Definition set_session_userId (v : JsVal) : M unit :=
  fun c =>
    match session c with
    | None => (Err (TypeError "Cannot set properties of undefined"), c)
    | Some _ =>
        (Ok tt,
         {| db := db c; sessions := sessions c; sessionID := sessionID c;
            session := Some {| userId := v |}; body := body c;
            user := user c; calls := calls c |})
    end.

(** [req.session.save(cb)]: the store is given the session under the
    request's id, and [cb] receives what the store reports. *)
Definition session_save : M (option Error) :=
  fun c =>
    match session c with
    | None => (Err (TypeError "Cannot read properties of undefined"), c)
    | Some s =>
        let (t', err) := store_set (sessionID c) s (sessions c) in
        (Ok err,
         {| db := db c; sessions := t'; sessionID := sessionID c;
            session := session c; body := body c; user := user c;
            calls := calls c |})
    end.

Notation "'let!' x ':=' m 'in' k" := (bind m (fun x => k))
  (at level 10, x name, m at level 100, k at level 200).
Notation "'run!' m 'in' k" := (bind m (fun _ => k))
  (at level 10, m at level 100, k at level 200).

(** [return res.status(s).json(p)] *)
Definition res_status_json (s : Z) (p : Payload) : M Reply := ret (Sent s p).

(** [res.json(p)]: the status stays at its default. *)
Definition res_json (p : Payload) : M Reply := ret (Sent 200 p).

(** [next()] *)
Definition next : M Reply := ret NextCalled.

(** [await bcrypt.compare(data, hash)] *)
Definition await_bcrypt_compare (data hash : JsVal) : M bool :=
  fun c => (bcrypt_compare data hash, c).

(** ** The gates *)

(** [requireAuth] as the server defines it next to the signup route.  The
    [console.log] at its head has no effect on the request and is left
    out.  The callback handed to [destroy] is [() => {}]: whatever the
    store reports is dropped. *)
Definition requireAuth : M Reply :=
  let! uid := read session_userId in
  if negb (truthy uid) then
    res_status_json 401 (Message "Unauthorized")
  else
    let! found := await_getUser uid in
    match found with
    | Some u =>
        if truthy (prop u "isActive") then
          run! set_req_user u in next
        else
          run! session_destroy in
          res_status_json 401 (Message "Unauthorized")
    | None =>
        run! session_destroy in
        res_status_json 401 (Message "Unauthorized")
    end.

(** [requireAdmin] *)
Definition requireAdmin : M Reply :=
  let! uid := read session_userId in
  if negb (truthy uid) then
    res_status_json 401 (Message "Unauthorized")
  else
    let! found := await_getUser uid in
    match found with
    | Some u =>
        if negb (strict_eq (prop u "role") (JStr "admin")) then
          res_status_json 403 (Message "Admin access required")
        else next
    | None => res_status_json 403 (Message "Admin access required")
    end.

(** [requireAuth] as [server/routes.ts] defines it: the same name, but
    only the presence of a session user id is tested. *)
Definition requireAuth_sessionOnly : M Reply :=
  let! uid := read session_userId in
  if negb (truthy uid) then
    res_status_json 401 (Message "Unauthorized")
  else next.

(** ** Account creation and login *)

(** [allUsers.length === 0 || isFirstUser ? 'admin' : 'health_worker'] *)
Definition assignRole (existingUserCount : nat) (isFirstUser : JsVal) : JsVal :=
  if Nat.eqb existingUserCount 0 || truthy isFirstUser
  then JStr "admin" else JStr "health_worker".

(** The object literal handed to [storage.createUser]. *)
Definition newUserFields (username password name email phone role : JsVal) : JsObj :=
  <["username" := username]>
  (<["password" := password]>
  (<["name" := name]>
  (<["email" := js_or email JNull]>
  (<["phone" := js_or phone JNull]>
  (<["role" := role]>
  (<["isActive" := JBool true]> ∅)))))).

(** [app.post("/api/auth/signup", ...)].  The callback of
    [req.session.save] only writes to the console. *)
Definition signup : M Reply :=
  try_catch
    (let! b := read body in
     let username := prop b "username" in
     let password := prop b "password" in
     let name := prop b "name" in
     let email := prop b "email" in
     let phone := prop b "phone" in
     let isFirstUser := prop b "isFirstUser" in
     if negb (truthy username) || negb (truthy password) || negb (truthy name) then
       res_status_json 400 (Message "Username, password, and name are required")
     else
       let! existingUser := await_getUserByUsername username in
       match existingUser with
       | Some _ => res_status_json 400 (Message "Username already exists")
       | None =>
           let! allUsers := await_getAllUsers in
           let role := assignRole (length allUsers) isFirstUser in
           let! newUser :=
             await_createUser (newUserFields username password name email phone role) in
           run! set_session_userId (prop newUser "id") in
           run! session_save in
           res_json (UserEnvelope (withoutPassword newUser))
       end)
    (fun _ => res_status_json 500 (Message "Signup failed")).

(** [app.post("/api/auth/login", ...)] *)
Definition login : M Reply :=
  try_catch
    (let! b := read body in
     let username := prop b "username" in
     let password := prop b "password" in
     if negb (truthy username) || negb (truthy password) then
       res_status_json 400 (Message "Username and password are required")
     else
       let! found := await_getUserByUsername username in
       match found with
       | Some u =>
           if truthy (prop u "isActive") then
             let! isValidPassword := await_bcrypt_compare password (prop u "password") in
             if negb isValidPassword then
               res_status_json 401 (Message "Invalid credentials")
             else
               run! set_session_userId (prop u "id") in
               run! session_save in
               res_json (UserEnvelope (withoutPassword u))
           else res_status_json 401 (Message "Invalid credentials")
       | None => res_status_json 401 (Message "Invalid credentials")
       end)
    (fun _ => res_status_json 500 (Message "Login failed")).

(** [app.post("/api/auth/logout", ...)]: here the callback looks at the
    error the store reports. *)
Definition logout : M Reply :=
  let! err := session_destroy in
  match err with
  | Some _ => res_status_json 500 (Message "Logout failed")
  | None => res_json (Message "Logged out successfully")
  end.

End Routes.

Arguments Ctx : clear implicits.
Arguments M : clear implicits.

(** ** Reference collaborators *)

(** Modelled from the spec: a user store with the four operations the
    routes consume ([getUser], [getUserByUsername], [getAllUsers],
    [createUser]), since [./storage] itself is not part of the sources.
    Rows are kept in creation order, ids are handed out by a counter, the
    username column is unique, and an unavailable store fails every call. *)
Module MemStorage.

Record t : Type := {
  rows : list JsObj;
  nextId : Z;
  available : bool;
}.

Definition empty : t := {| rows := []; nextId := 1; available := true |}.

Definition unavailable (d : t) : t :=
  {| rows := rows d; nextId := nextId d; available := false |}.

Definition down {A} : Result A := Err (StoreError "connection refused").

Definition by_column (k : string) (v : JsVal) (d : t) : option JsObj :=
  List.find (fun r => strict_eq (prop r k) v) (rows d).

Definition insert_row (fields : JsObj) (d : t) : Result (JsObj * t) :=
  if negb (available d) then down
  else
    match by_column "username" (prop fields "username") d with
    | Some _ => Err (StoreError "duplicate key value violates unique constraint")
    | None =>
        let row := <["id" := JNum (nextId d)]> fields in
        Ok (row, {| rows := rows d ++ [row]; nextId := nextId d + 1;
                    available := available d |})
    end.

#[global] Instance storage : IStorage t := {
  getUser id d := if available d then Ok (by_column "id" id d) else down;
  getUserByUsername name d :=
    if available d then Ok (by_column "username" name d) else down;
  getAllUsers d := if available d then Ok (rows d) else down;
  createUser := insert_row;
}.

End MemStorage.

(** A session store in the manner of memorystore: sessions by id.  A
    [broken] store reports an error to every callback and keeps what it
    holds. *)
Module MemorySessions.

Record t : Type := {
  entries : gmap string Session;
  broken : bool;
}.

Definition destroy (sid : string) (m : t) : t * option Error :=
  if broken m then (m, Some (StoreError "session store failure"))
  else ({| entries := delete sid (entries m); broken := false |}, None).

Definition set (sid : string) (s : Session) (m : t) : t * option Error :=
  if broken m then (m, Some (StoreError "session store failure"))
  else ({| entries := <[sid := s]> (entries m); broken := false |}, None).

#[global] Instance store : SessionStore t := {
  store_destroy := destroy;
  store_set := set;
}.

End MemorySessions.

(** A [bcrypt.compare] stand-in for running the handlers on concrete
    requests: a hash is the text ["bcrypt:"] followed by the password. *)
Module ToyBcrypt.

Definition compare (data hash : JsVal) : Result bool :=
  match data, hash with
  | JStr d, JStr h => Ok (String.eqb h ("bcrypt:" ++ d))
  | _, _ => Err (TypeError "Illegal arguments")
  end.

#[global] Instance bcrypt : Bcrypt := {| bcrypt_compare := compare |}.

End ToyBcrypt.

(** ** Outcomes of a gate, in the words of the interface *)



(** A lookup result that [requireAuth] treats as no valid user: no row, or
    a row whose [isActive] is falsy. *)
Definition missing_or_inactive (found : option JsObj) : Prop :=
  match found with
  | None => True
  | Some u => truthy (prop u "isActive") = false
  end.


(** The context [req.session.destroy] leaves behind when the store hands
    back [t']. *)
Definition destroyed {S T : Type} (t' : T) (c : Ctx S T) : Ctx S T :=
  {| db := db c; sessions := t'; sessionID := sessionID c; session := None;
     body := body c; user := user c; calls := calls c |}.

(** [username && password && name], the test the signup route negates. *)
Definition signup_complete (b : JsObj) : bool :=
  truthy (prop b "username") && truthy (prop b "password") && truthy (prop b "name").

(** [username && password], the test the login route negates. *)
Definition login_complete (b : JsObj) : bool :=
  truthy (prop b "username") && truthy (prop b "password").

(** The three ways a complete login request is turned away: nobody by that
    name, an inactive account, a password that does not match. *)
Inductive login_denied `{!Bcrypt} (password : JsVal) : option JsObj -> Prop :=
| denied_unknown :
    login_denied password None
| denied_inactive u :
    truthy (prop u "isActive") = false ->
    login_denied password (Some u)
| denied_mismatch u :
    truthy (prop u "isActive") = true ->
    bcrypt_compare password (prop u "password") = Ok false ->
    login_denied password (Some u).

(** The context after [req.session.userId = v] and a save that left the
    session store as [t']. *)
Definition signedIn {S T : Type} (v : JsVal) (t' : T) (c : Ctx S T) : Ctx S T :=
  {| db := db c; sessions := t'; sessionID := sessionID c;
     session := Some {| userId := v |}; body := body c; user := user c;
     calls := calls c |}.

(** The object the signup route builds from a request body and a role. *)
Definition signupFields (b : JsObj) (role : JsVal) : JsObj :=
  newUserFields (prop b "username") (prop b "password") (prop b "name")
                (prop b "email") (prop b "phone") role.

(** The three storage calls of a signup that gets past both checks, when
    [getAllUsers] returned [l]. *)
Definition signup_calls (b : JsObj) (l : list JsObj) : list StorageCall :=
  [CallGetUserByUsername (prop b "username");
   CallGetAllUsers;
   CallCreateUser (signupFields b (assignRole (length l) (prop b "isFirstUser")))].

(** ** Concrete requests *)

Module Fixtures.

Definition userRow (i : Z) (username password role : string) (active : bool) : JsObj :=
  <["id" := JNum i]>
  (<["username" := JStr username]>
  (<["password" := JStr password]>
  (<["name" := JStr username]>
  (<["role" := JStr role]>
  (<["isActive" := JBool active]> ∅))))).

Definition storeOf (l : list JsObj) : MemStorage.t :=
  {| MemStorage.rows := l; MemStorage.nextId := 100; MemStorage.available := true |}.

Definition sessionsOf (sid : string) (uid : Z) (broken : bool) : MemorySessions.t :=
  {| MemorySessions.entries := {[ sid := {| userId := JNum uid |} ]};
     MemorySessions.broken := broken |}.

(** A request under session ["sid-1"] that names user [uid]. *)
Definition request (l : list JsObj) (uid : Z) (broken : bool) (b : JsObj)
  : Ctx MemStorage.t MemorySessions.t :=
  {| db := storeOf l; sessions := sessionsOf "sid-1" uid broken;
     sessionID := "sid-1"; session := Some {| userId := JNum uid |};
     body := b; user := None; calls := [] |}.

(** A request whose session carries no user id. *)
Definition anonymous (d : MemStorage.t) (b : JsObj)
  : Ctx MemStorage.t MemorySessions.t :=
  {| db := d;
     sessions := {| MemorySessions.entries := ∅; MemorySessions.broken := false |};
     sessionID := "sid-0"; session := Some {| userId := JUndefined |};
     body := b; user := None; calls := [] |}.

Definition signupBody (username password name : string) : JsObj :=
  <["username" := JStr username]>
  (<["password" := JStr password]>
  (<["name" := JStr name]> ∅)).

Definition loginBody (username password : string) : JsObj :=
  <["username" := JStr username]> (<["password" := JStr password]> ∅).

(** A login body whose password is whatever JSON value the client sent. *)
Definition loginWith (username : string) (password : JsVal) : JsObj :=
  <["username" := JStr username]> (<["password" := password]> ∅).

(** User 42, deactivated. *)
Definition ravi : JsObj := userRow 42 "ravi" "bcrypt:monsoon" "health_worker" false.

(** User 7, an active health worker. *)
Definition asha : JsObj := userRow 7 "asha" "bcrypt:pw" "health_worker" true.

(** User 1, the active administrator. *)
Definition meena : JsObj := userRow 1 "meena" "bcrypt:s3cret" "admin" true.

(** User 3, an administrator who has been deactivated. *)
Definition kiran : JsObj := userRow 3 "kiran" "bcrypt:old" "admin" false.

Definition staff : list JsObj := [meena; kiran; asha; ravi].

(** A request whose session names a user while the store is down. *)
Definition duringOutage (uid : Z) : Ctx MemStorage.t MemorySessions.t :=
  {| db := MemStorage.unavailable (storeOf staff);
     sessions := sessionsOf "sid-1" uid false;
     sessionID := "sid-1"; session := Some {| userId := JNum uid |};
     body := ∅; user := None; calls := [] |}.

(** The request that follows [c] on the same stores, under a session of
    its own that carries no user id yet. *)
Definition following (c : Ctx MemStorage.t MemorySessions.t) (b : JsObj)
  : Ctx MemStorage.t MemorySessions.t :=
  {| db := db c; sessions := sessions c;
     sessionID := "sid-2"; session := Some {| userId := JUndefined |};
     body := b; user := None; calls := [] |}.

End Fixtures.

(** ** The routes behind the gates *)

(** [parseInt] and number literals.  The numbers the routes pass to
    [storage] are kept abstract: what matters to a route is which value it
    hands on, not what [parseInt] made of it. *)
Class Builtins : Type := {
  Num : Type;
  parseInt : JsVal -> Num;      (* parseInt(v) *)
  number : Z -> Num;            (* a literal such as 1000 *)
}.

(** The [parse] methods of the insert schemas imported from
    [@shared/schema]; each returns the validated object or throws. *)
Class Schemas : Type := {
  insertUserSchema_parse : JsObj -> Result JsObj;
  insertPatientSchema_parse : JsObj -> Result JsObj;
  insertVaccinationSchema_parse : JsObj -> Result JsObj;
  insertAppointmentSchema_parse : JsObj -> Result JsObj;
}.

(** The operations of [storage] that the remaining routes call, beside the
    user operations of [IStorage].  Reads are functions of the store;
    writes return the persisted row and the new store. *)
Class IRecords (S : Type) `{!Builtins} : Type := {
  updateUser : Num -> JsObj -> S -> Result (JsObj * S);
  getAllPatients : Num -> Num -> S -> Result (list JsObj);
  searchPatients : JsVal -> S -> Result (list JsObj);
  getPatient : Num -> S -> Result (option JsObj);
  getPatientByQRCode : JsVal -> S -> Result (option JsObj);
  createPatient : JsObj -> S -> Result (JsObj * S);
  updatePatient : Num -> JsObj -> S -> Result (JsObj * S);
  getAllVaccines : S -> Result (list JsObj);
  getVaccinationsByPatient : Num -> S -> Result (list JsObj);
  createVaccination : JsObj -> S -> Result (JsObj * S);
  updateVaccination : Num -> JsObj -> S -> Result (JsObj * S);
  getVaccinationStats : S -> Result JsObj;
  getTodayAppointments : S -> Result (list JsObj);
  createAppointment : JsObj -> S -> Result (JsObj * S);
  updateAppointment : Num -> JsObj -> S -> Result (JsObj * S);
}.

(** What a route answers with. *)
Inductive Body : Type :=
| Reported (p : Payload)     (* the bodies of the gates and account routes *)
| Object (o : JsObj)         (* one row, or a flat object *)
| Rows (l : list JsObj).     (* an array of rows *)

Inductive Answer : Type :=
| Answered (status : Z) (b : Body).

Definition status_of (a : Answer) : Z :=
  match a with Answered s _ => s end.

(** The rows an answer carries. *)
Definition rows_of (a : Answer) : list JsObj :=
  match a with
  | Answered _ (Reported (UserEnvelope u)) => [u]
  | Answered _ (Reported (UserJson u)) => [u]
  | Answered _ (Reported (Message _)) => []
  | Answered _ (Object o) => [o]
  | Answered _ (Rows l) => l
  end.

(** [{ ...o, k: v }] *)
Definition spread_then (o : JsObj) (k : string) (v : JsVal) : JsObj := <[k := v]> o.

(** [{ k: v, ...o }] *)
Definition then_spread (k : string) (v : JsVal) (o : JsObj) : JsObj :=
  o ∪ {[ k := v ]}.

(** [const { k = d } = o]: the default stands in for [undefined] only. *)
Definition or_default (v d : JsVal) : JsVal :=
  match v with
  | JUndefined => d
  | _ => v
  end.

(** [typeof v === 'string'] *)
Definition is_string (v : JsVal) : bool :=
  match v with
  | JStr _ => true
  | _ => false
  end.

(** The context after [req.user = u]. *)
Definition attached {S T : Type} (u : JsObj) (c : Ctx S T) : Ctx S T :=
  {| db := db c; sessions := sessions c; sessionID := sessionID c;
     session := session c; body := body c; user := Some u;
     calls := calls c |}.

Section Handlers.

Context {S T : Type} `{!IStorage S} `{!SessionStore T}
        `{!Builtins} `{!IRecords S} `{!Schemas}.

Notation "'let!' x ':=' m 'in' k" := (bind m (fun x => k))
  (at level 10, x name, m at level 100, k at level 200).

(** [res.status(s).json(b)], [res.json(b)] *)
Definition answer (s : Z) (b : Body) : M S T Answer := ret (Answered s b).

(** [req.session.userId], which throws when there is no session. *)
Definition session_userId_strict : M S T JsVal :=
  fun c =>
    match session c with
    | Some s => (Ok (userId s), c)
    | None => (Err (TypeError "Cannot read properties of undefined"), c)
    end.

(** An awaited read of [storage]. *)
Definition await_read {A} (op : S -> Result A) : M S T A :=
  fun c => (op (db c), c).

(** An awaited write of [storage]. *)
Definition await_write (op : S -> Result (JsObj * S)) : M S T JsObj :=
  fun c =>
    match op (db c) with
    | Ok (row, d') =>
        (Ok row,
         {| db := d'; sessions := sessions c; sessionID := sessionID c;
            session := session c; body := body c; user := user c;
            calls := calls c |})
    | Err e => (Err e, c)
    end.

(** [schema.parse(o)] *)
Definition parsed (parse : JsObj -> Result JsObj) (o : JsObj) : M S T JsObj :=
  fun c => (parse o, c).

(** Express runs the handler only after the gate has called [next]. *)
Definition chain (gate : M S T Reply) (handler : M S T Answer) : M S T Answer :=
  let! r := gate in
  match r with
  | Sent s p => answer s (Reported p)
  | NextCalled => handler
  end.

(** [app.get("/api/auth/user", requireAuth, ...)], the handler *)
Definition authUser : M S T Answer :=
  try_catch
    (let! uid := session_userId_strict in
     let! found := await_getUser uid in
     match found with
     | None => answer 401 (Reported (Message "User not found"))
     | Some u => answer 200 (Object (withoutPassword u))
     end)
    (fun _ => answer 500 (Reported (Message "Failed to get user"))).

(** [app.get("/api/auth/setup", ...)] *)
Definition authSetup : M S T Answer :=
  try_catch
    (let! allUsers := await_getAllUsers in
     answer 200 (Object {[ "needsSetup" := JBool (Nat.eqb (length allUsers) 0) ]}))
    (fun _ => answer 500 (Reported (Message "Failed to check setup status"))).

(** [app.get("/api/users", requireAdmin, ...)], the handler *)
Definition listUsers : M S T Answer :=
  try_catch
    (let! users := await_getAllUsers in
     answer 200 (Rows (map withoutPassword users)))
    (fun _ => answer 500 (Reported (Message "Failed to get users"))).

(** [app.post("/api/users", requireAdmin, ...)], the handler *)
Definition createUserRoute : M S T Answer :=
  try_catch
    (let! b := read body in
     let! validatedData := parsed insertUserSchema_parse b in
     let! created := await_createUser validatedData in
     answer 200 (Object (withoutPassword created)))
    (fun _ => answer 500 (Reported (Message "Failed to create user"))).

(** [app.put("/api/users/:id", requireAdmin, ...)], the handler *)
Definition updateUserRoute (id : JsVal) : M S T Answer :=
  try_catch
    (let! updates := read body in
     let! updated := await_write (updateUser (parseInt id) updates) in
     answer 200 (Object (withoutPassword updated)))
    (fun _ => answer 500 (Reported (Message "Failed to update user"))).

(** [app.get("/api/patients", requireAuth, ...)], the handler; [limit] and
    [offset] are the query's values. *)
Definition listPatients (limit offset : JsVal) : M S T Answer :=
  try_catch
    (let! patients :=
       await_read (getAllPatients (parseInt (or_default limit (JNum 50)))
                                  (parseInt (or_default offset (JNum 0)))) in
     answer 200 (Rows patients))
    (fun _ => answer 500 (Reported (Message "Failed to get patients"))).

(** [app.get("/api/patients/search", requireAuth, ...)], the handler *)
Definition searchPatientsRoute (q : JsVal) : M S T Answer :=
  try_catch
    (if negb (truthy q) || negb (is_string q) then
       answer 400 (Reported (Message "Search query is required"))
     else
       let! patients := await_read (searchPatients q) in
       answer 200 (Rows patients))
    (fun _ => answer 500 (Reported (Message "Failed to search patients"))).

(** [app.get("/api/patients/:id", requireAuth, ...)], the handler *)
Definition getPatientRoute (id : JsVal) : M S T Answer :=
  try_catch
    (let! found := await_read (getPatient (parseInt id)) in
     match found with
     | None => answer 404 (Reported (Message "Patient not found"))
     | Some patient => answer 200 (Object patient)
     end)
    (fun _ => answer 500 (Reported (Message "Failed to get patient"))).

(** [app.get("/api/patients/qr/:qrCode", requireAuth, ...)], the handler *)
Definition getPatientByQRCodeRoute (qrCode : JsVal) : M S T Answer :=
  try_catch
    (let! found := await_read (getPatientByQRCode qrCode) in
     match found with
     | None => answer 404 (Reported (Message "Patient not found"))
     | Some patient => answer 200 (Object patient)
     end)
    (fun _ => answer 500 (Reported (Message "Failed to get patient by QR code"))).

(** [app.post("/api/patients", requireAuth, ...)], the handler *)
Definition createPatientRoute : M S T Answer :=
  try_catch
    (let! b := read body in
     let! uid := session_userId_strict in
     let! validatedData :=
       parsed insertPatientSchema_parse (spread_then b "createdBy" uid) in
     let! patient := await_write (createPatient validatedData) in
     answer 200 (Object patient))
    (fun _ => answer 500 (Reported (Message "Failed to create patient"))).

(** [app.put("/api/patients/:id", requireAuth, ...)], the handler *)
Definition updatePatientRoute (id : JsVal) : M S T Answer :=
  try_catch
    (let! updates := read body in
     let! patient := await_write (updatePatient (parseInt id) updates) in
     answer 200 (Object patient))
    (fun _ => answer 500 (Reported (Message "Failed to update patient"))).

(** [app.get("/api/vaccines", requireAuth, ...)], the handler *)
Definition listVaccines : M S T Answer :=
  try_catch
    (let! vaccines := await_read getAllVaccines in
     answer 200 (Rows vaccines))
    (fun _ => answer 500 (Reported (Message "Failed to get vaccines"))).

(** [app.get("/api/patients/:id/vaccinations", requireAuth, ...)], the
    handler *)
Definition listPatientVaccinations (id : JsVal) : M S T Answer :=
  try_catch
    (let! vaccinations := await_read (getVaccinationsByPatient (parseInt id)) in
     answer 200 (Rows vaccinations))
    (fun _ => answer 500 (Reported (Message "Failed to get vaccinations"))).

(** [app.post("/api/vaccinations", requireAuth, ...)], the handler *)
Definition createVaccinationRoute : M S T Answer :=
  try_catch
    (let! b := read body in
     let! uid := session_userId_strict in
     let! validatedData :=
       parsed insertVaccinationSchema_parse (spread_then b "administeredBy" uid) in
     let! vaccination := await_write (createVaccination validatedData) in
     answer 200 (Object vaccination))
    (fun _ => answer 500 (Reported (Message "Failed to create vaccination"))).

(** [app.put("/api/vaccinations/:id", requireAuth, ...)], the handler *)
Definition updateVaccinationRoute (id : JsVal) : M S T Answer :=
  try_catch
    (let! updates := read body in
     let! vaccination := await_write (updateVaccination (parseInt id) updates) in
     answer 200 (Object vaccination))
    (fun _ => answer 500 (Reported (Message "Failed to update vaccination"))).

(** [app.get("/api/vaccinations/stats", requireAuth, ...)], the handler *)
Definition vaccinationStats : M S T Answer :=
  try_catch
    (let! stats := await_read getVaccinationStats in
     answer 200 (Object stats))
    (fun _ => answer 500 (Reported (Message "Failed to get vaccination stats"))).

(** [app.get("/api/appointments/today", requireAuth, ...)], the handler *)
Definition todayAppointments : M S T Answer :=
  try_catch
    (let! appointments := await_read getTodayAppointments in
     answer 200 (Rows appointments))
    (fun _ => answer 500 (Reported (Message "Failed to get today's appointments"))).

(** [app.post("/api/appointments", requireAuth, ...)], the handler *)
Definition createAppointmentRoute : M S T Answer :=
  try_catch
    (let! b := read body in
     let! uid := session_userId_strict in
     let! validatedData :=
       parsed insertAppointmentSchema_parse (spread_then b "createdBy" uid) in
     let! appointment := await_write (createAppointment validatedData) in
     answer 200 (Object appointment))
    (fun _ => answer 500 (Reported (Message "Failed to create appointment"))).

(** [app.put("/api/appointments/:id", requireAuth, ...)], the handler *)
Definition updateAppointmentRoute (id : JsVal) : M S T Answer :=
  try_catch
    (let! updates := read body in
     let! appointment := await_write (updateAppointment (parseInt id) updates) in
     answer 200 (Object appointment))
    (fun _ => answer 500 (Reported (Message "Failed to update appointment"))).

(** [app.get("/api/dashboard/stats", requireAuth, ...)], the handler.  The
    two reads of [Promise.all] both see the store as it is; if either
    fails the [catch] answers. *)
Definition dashboardStats : M S T Answer :=
  try_catch
    (let! patients := await_read (getAllPatients (number 1000) (number 0)) in
     let! vaccinationStats := await_read getVaccinationStats in
     answer 200
       (Object (then_spread "totalPatients" (JNum (Z.of_nat (length patients)))
                            vaccinationStats)))
    (fun _ => answer 500 (Reported (Message "Failed to get dashboard stats"))).

(** The routes registered after the account routes, with what the request
    path and query contribute. *)
Inductive Route : Type :=
| GetAuthUser
| GetAuthSetup
| GetUsers
| PostUsers
| PutUser (id : JsVal)
| GetPatients (limit offset : JsVal)
| GetPatientsSearch (q : JsVal)
| GetPatient (id : JsVal)
| GetPatientByQr (qrCode : JsVal)
| PostPatients
| PutPatient (id : JsVal)
| GetVaccines
| GetPatientVaccinations (id : JsVal)
| PostVaccinations
| PutVaccination (id : JsVal)
| GetVaccinationStats
| GetAppointmentsToday
| PostAppointments
| PutAppointment (id : JsVal)
| GetDashboardStats.

(** The middleware a route is registered with. *)
Inductive Guard : Type :=
| Unguarded
| Authenticated
| AdminOnly.

Definition guard_of (r : Route) : Guard :=
  match r with
  | GetAuthSetup => Unguarded
  | GetUsers | PostUsers | PutUser _ => AdminOnly
  | _ => Authenticated
  end.

Definition handler_of (r : Route) : M S T Answer :=
  match r with
  | GetAuthUser => authUser
  | GetAuthSetup => authSetup
  | GetUsers => listUsers
  | PostUsers => createUserRoute
  | PutUser id => updateUserRoute id
  | GetPatients limit offset => listPatients limit offset
  | GetPatientsSearch q => searchPatientsRoute q
  | GetPatient id => getPatientRoute id
  | GetPatientByQr qrCode => getPatientByQRCodeRoute qrCode
  | PostPatients => createPatientRoute
  | PutPatient id => updatePatientRoute id
  | GetVaccines => listVaccines
  | GetPatientVaccinations id => listPatientVaccinations id
  | PostVaccinations => createVaccinationRoute
  | PutVaccination id => updateVaccinationRoute id
  | GetVaccinationStats => vaccinationStats
  | GetAppointmentsToday => todayAppointments
  | PostAppointments => createAppointmentRoute
  | PutAppointment id => updateAppointmentRoute id
  | GetDashboardStats => dashboardStats
  end.

(** Two contexts that agree on what a handler reads: the store, the
    session on the request and the body. *)
Definition agree (c1 c2 : Ctx S T) : Prop :=
  db c1 = db c2 /\ session c1 = session c2 /\ body c1 = body c2.

(** A computation that, on contexts that agree, yields the same result
    and contexts that agree again. *)
Definition respects {A} (m : M S T A) : Prop :=
  forall c1 c2, agree c1 c2 ->
                fst (m c1) = fst (m c2) /\ agree (snd (m c1)) (snd (m c2)).

(** The routes whose answers are made of user rows. *)
Definition user_route (r : Route) : bool :=
  match r with
  | GetAuthUser | GetUsers | PostUsers | PutUser _ => true
  | _ => false
  end.

(** A route as registered: the gate, then the handler. *)
Definition serve (r : Route) : M S T Answer :=
  match guard_of r with
  | Unguarded => handler_of r
  | Authenticated => chain requireAuth (handler_of r)
  | AdminOnly => chain requireAdmin (handler_of r)
  end.

(** The same routes as [server/routes.ts] registers them: behind its own
    [requireAuth], which asks the store nothing.  That file registers no
    [/api/auth/setup]; what becomes of such a request is decided by
    whatever the application mounts after the routes. *)
Definition serve_sessionOnly (r : Route) : option (M S T Answer) :=
  match guard_of r with
  | Unguarded => None
  | Authenticated => Some (chain requireAuth_sessionOnly (handler_of r))
  | AdminOnly => Some (chain requireAdmin (handler_of r))
  end.

(** What it means for a creating route to write the session's user id
    into the record under [key]: the object handed to the schema is the
    request body with [key] set to the session's user id, whatever the
    body said there; a schema failure is answered 500 with nothing
    stored; and what the schema returns for that object is what the store
    is asked to create, whose row is the answer. *)
Definition stamped_create (key : string) (parse : JsObj -> Result JsObj)
    (create : JsObj -> S -> Result (JsObj * S)) (failure : string)
    (route : M S T Answer) (c : Ctx S T) : Prop :=
  forall s,
    session c = Some s ->
    prop (spread_then (body c) key (userId s)) key = userId s
    /\ (forall e,
          parse (spread_then (body c) key (userId s)) = Err e ->
          route c = (Ok (Answered 500 (Reported (Message failure))), c))
    /\ (forall v,
          parse (spread_then (body c) key (userId s)) = Ok v ->
          (forall row d',
             create v (db c) = Ok (row, d') ->
             fst (route c) = Ok (Answered 200 (Object row))
             /\ db (snd (route c)) = d')
          /\ (forall e,
                create v (db c) = Err e ->
                route c = (Ok (Answered 500 (Reported (Message failure))), c))).

End Handlers.

Section GateRuns.

Context {S T : Type} `{!IStorage S} `{!SessionStore T}.

Implicit Types c : Ctx S T.

(** The ways [requireAuth] can go. *)
Inductive AuthRun c : Prop :=
| auth_anonymous :
    truthy (session_userId c) = false ->
    requireAuth c = (Ok (Sent 401 (Message "Unauthorized")), c) ->
    AuthRun c
| auth_rejected found :
    truthy (session_userId c) = true ->
    getUser (session_userId c) (db c) = Ok found ->
    missing_or_inactive found ->
    requireAuth c =
      (Ok (Sent 401 (Message "Unauthorized")),
       destroyed (fst (store_destroy (sessionID c) (sessions c)))
                 (logged (CallGetUser (session_userId c)) c)) ->
    AuthRun c
| auth_accepted u :
    truthy (session_userId c) = true ->
    getUser (session_userId c) (db c) = Ok (Some u) ->
    truthy (prop u "isActive") = true ->
    requireAuth c =
      (Ok NextCalled, attached u (logged (CallGetUser (session_userId c)) c)) ->
    AuthRun c
| auth_failed e :
    truthy (session_userId c) = true ->
    getUser (session_userId c) (db c) = Err e ->
    requireAuth c = (Err e, logged (CallGetUser (session_userId c)) c) ->
    AuthRun c.

(** The ways [requireAdmin] can go. *)
Inductive AdminRun c : Prop :=
| admin_anonymous :
    truthy (session_userId c) = false ->
    requireAdmin c = (Ok (Sent 401 (Message "Unauthorized")), c) ->
    AdminRun c
| admin_forbidden found :
    truthy (session_userId c) = true ->
    getUser (session_userId c) (db c) = Ok found ->
    (forall u, found = Some u -> prop u "role" <> JStr "admin") ->
    requireAdmin c =
      (Ok (Sent 403 (Message "Admin access required")),
       logged (CallGetUser (session_userId c)) c) ->
    AdminRun c
| admin_accepted u :
    truthy (session_userId c) = true ->
    getUser (session_userId c) (db c) = Ok (Some u) ->
    prop u "role" = JStr "admin" ->
    requireAdmin c = (Ok NextCalled, logged (CallGetUser (session_userId c)) c) ->
    AdminRun c
| admin_failed e :
    truthy (session_userId c) = true ->
    getUser (session_userId c) (db c) = Err e ->
    requireAdmin c = (Err e, logged (CallGetUser (session_userId c)) c) ->
    AdminRun c.

End GateRuns.

Section AccountRuns.

Context {S T : Type} `{!IStorage S} `{!SessionStore T} `{!Bcrypt}.

Implicit Types c : Ctx S T.

(** The ways a signup can go, each with its answer and what it leaves. *)
Inductive SignupRun c : Prop :=
| signup_incomplete :
    signup_complete (body c) = false ->
    signup c = (Ok (Sent 400 (Message "Username, password, and name are required")), c) ->
    SignupRun c
| signup_taken u :
    signup_complete (body c) = true ->
    getUserByUsername (prop (body c) "username") (db c) = Ok (Some u) ->
    signup c = (Ok (Sent 400 (Message "Username already exists")),
                logged (CallGetUserByUsername (prop (body c) "username")) c) ->
    SignupRun c
| signup_failed :
    signup_complete (body c) = true ->
    fst (signup c) = Ok (Sent 500 (Message "Signup failed")) ->
    db (snd (signup c)) = db c ->
    session (snd (signup c)) = session c ->
    sessions (snd (signup c)) = sessions c ->
    SignupRun c
| signup_created_unanswered l row d' :
    signup_complete (body c) = true ->
    getUserByUsername (prop (body c) "username") (db c) = Ok None ->
    getAllUsers (db c) = Ok l ->
    createUser (signupFields (body c)
                  (assignRole (length l) (prop (body c) "isFirstUser")))
               (db c) = Ok (row, d') ->
    session c = None ->
    fst (signup c) = Ok (Sent 500 (Message "Signup failed")) ->
    db (snd (signup c)) = d' ->
    SignupRun c
| signup_created l row d' s :
    signup_complete (body c) = true ->
    getUserByUsername (prop (body c) "username") (db c) = Ok None ->
    getAllUsers (db c) = Ok l ->
    createUser (signupFields (body c)
                  (assignRole (length l) (prop (body c) "isFirstUser")))
               (db c) = Ok (row, d') ->
    session c = Some s ->
    fst (signup c) = Ok (Sent 200 (UserEnvelope (withoutPassword row))) ->
    db (snd (signup c)) = d' ->
    session (snd (signup c)) = Some {| userId := prop row "id" |} ->
    sessions (snd (signup c))
      = fst (store_set (sessionID c) {| userId := prop row "id" |} (sessions c)) ->
    SignupRun c.

(** The ways a login can go. *)
Inductive LoginRun c : Prop :=
| login_incomplete :
    login_complete (body c) = false ->
    login c = (Ok (Sent 400 (Message "Username and password are required")), c) ->
    LoginRun c
| login_turned_away found :
    login_complete (body c) = true ->
    getUserByUsername (prop (body c) "username") (db c) = Ok found ->
    login_denied (prop (body c) "password") found ->
    login c = (Ok (Sent 401 (Message "Invalid credentials")),
               logged (CallGetUserByUsername (prop (body c) "username")) c) ->
    LoginRun c
| login_failed :
    login_complete (body c) = true ->
    login c = (Ok (Sent 500 (Message "Login failed")),
               logged (CallGetUserByUsername (prop (body c) "username")) c) ->
    LoginRun c
| login_granted u s :
    login_complete (body c) = true ->
    getUserByUsername (prop (body c) "username") (db c) = Ok (Some u) ->
    truthy (prop u "isActive") = true ->
    bcrypt_compare (prop (body c) "password") (prop u "password") = Ok true ->
    session c = Some s ->
    login c = (Ok (Sent 200 (UserEnvelope (withoutPassword u))),
               signedIn (prop u "id")
                 (fst (store_set (sessionID c) {| userId := prop u "id" |} (sessions c)))
                 (logged (CallGetUserByUsername (prop (body c) "username")) c)) ->
    LoginRun c.

End AccountRuns.

(** ** A clinic to run the routes on *)

(** Stand-ins for the collaborators of the remaining routes, so that the
    routes can be run on concrete requests: a store that holds users,
    patients, vaccinations and appointments in lists, a [parseInt] that
    reads numbers and unsigned decimal numerals (everything else is NaN,
    here [None]), and schemas that ask for the key fields only. *)
Module Clinic.

Fixpoint digits_value (s : string) (acc : Z) : option Z :=
  match s with
  | EmptyString => Some acc
  | String a s' =>
      let n := nat_of_ascii a in
      if Nat.leb 48 n && Nat.leb n 57
      then digits_value s' (10 * acc + Z.of_nat (n - 48))
      else None
  end.

Definition numeral (s : string) : option Z :=
  match s with
  | EmptyString => None
  | _ => digits_value s 0
  end.

#[global] Instance builtins : Builtins := {|
  Num := option Z;
  parseInt v := match v with
                | JNum n => Some n
                | JStr s => numeral s
                | _ => None
                end;
  number z := Some z;
|}.

Record t : Type := {
  users : MemStorage.t;
  patients : list JsObj;
  vaccinations : list JsObj;
  appointments : list JsObj;
  nextRow : Z;
}.

Definition opening (u : MemStorage.t) : t :=
  {| users := u; patients := []; vaccinations := []; appointments := [];
     nextRow := 1 |}.

Definition has_id (i : Z) (row : JsObj) : bool :=
  strict_eq (prop row "id") (JNum i).

Definition lookup_row (id : option Z) (l : list JsObj) : option JsObj :=
  match id with
  | Some i => List.find (has_id i) l
  | None => None
  end.

Definition merge_row (id : option Z) (updates : JsObj) (l : list JsObj)
  : Result (JsObj * list JsObj) :=
  match lookup_row id l, id with
  | Some row, Some i =>
      let row' := updates ∪ row in
      Ok (row', map (fun r => if has_id i r then row' else r) l)
  | _, _ => Err (StoreError "no such row")
  end.

Definition window (limit offset : option Z) (l : list JsObj) : Result (list JsObj) :=
  match limit, offset with
  | Some n, Some k => Ok (take (Z.to_nat n) (drop (Z.to_nat k) l))
  | _, _ => Err (StoreError "invalid input syntax for type integer")
  end.

Definition with_users (u : MemStorage.t) (d : t) : t :=
  {| users := u; patients := patients d; vaccinations := vaccinations d;
     appointments := appointments d; nextRow := nextRow d |}.

#[global] Instance storage : IStorage t := {
  getUser id d := getUser id (users d);
  getUserByUsername name d := getUserByUsername name (users d);
  getAllUsers d := getAllUsers (users d);
  createUser fields d :=
    match createUser fields (users d) with
    | Ok (row, u') => Ok (row, with_users u' d)
    | Err e => Err e
    end;
}.

Definition count_status (status : string) (l : list JsObj) : JsVal :=
  JNum (Z.of_nat (length (filter (fun r => prop r "status" = JStr status) l))).

#[global] Instance records : IRecords t := {
  updateUser id updates d :=
    match merge_row id updates (MemStorage.rows (users d)) with
    | Ok (row, rows') =>
        Ok (row, with_users {| MemStorage.rows := rows';
                               MemStorage.nextId := MemStorage.nextId (users d);
                               MemStorage.available := MemStorage.available (users d) |} d)
    | Err e => Err e
    end;
  getAllPatients limit offset d := window limit offset (patients d);
  searchPatients q d :=
    Ok (filter (fun r => prop r "name" = q) (patients d));
  getPatient id d := Ok (lookup_row id (patients d));
  getPatientByQRCode q d :=
    Ok (List.find (fun r => strict_eq (prop r "qrCode") q) (patients d));
  createPatient fields d :=
    let row := <["id" := JNum (nextRow d)]> fields in
    Ok (row, {| users := users d; patients := patients d ++ [row];
                vaccinations := vaccinations d; appointments := appointments d;
                nextRow := nextRow d + 1 |});
  updatePatient id updates d :=
    match merge_row id updates (patients d) with
    | Ok (row, rows') =>
        Ok (row, {| users := users d; patients := rows';
                    vaccinations := vaccinations d;
                    appointments := appointments d; nextRow := nextRow d |})
    | Err e => Err e
    end;
  getAllVaccines d := Ok [];
  getVaccinationsByPatient id d :=
    Ok (filter (fun r => Some (prop r "patientId") = (JNum <$> id)) (vaccinations d));
  createVaccination fields d :=
    let row := <["id" := JNum (nextRow d)]> fields in
    Ok (row, {| users := users d; patients := patients d;
                vaccinations := vaccinations d ++ [row];
                appointments := appointments d; nextRow := nextRow d + 1 |});
  updateVaccination id updates d :=
    match merge_row id updates (vaccinations d) with
    | Ok (row, rows') =>
        Ok (row, {| users := users d; patients := patients d;
                    vaccinations := rows';
                    appointments := appointments d; nextRow := nextRow d |})
    | Err e => Err e
    end;
  getVaccinationStats d :=
    Ok (<["completed" := count_status "completed" (vaccinations d)]>
        (<["scheduled" := count_status "scheduled" (vaccinations d)]> ∅));
  getTodayAppointments d := Ok (appointments d);
  createAppointment fields d :=
    let row := <["id" := JNum (nextRow d)]> fields in
    Ok (row, {| users := users d; patients := patients d;
                vaccinations := vaccinations d;
                appointments := appointments d ++ [row]; nextRow := nextRow d + 1 |});
  updateAppointment id updates d :=
    match merge_row id updates (appointments d) with
    | Ok (row, rows') =>
        Ok (row, {| users := users d; patients := patients d;
                    vaccinations := vaccinations d;
                    appointments := rows'; nextRow := nextRow d |})
    | Err e => Err e
    end;
}.

Definition requires (keys : list string) (o : JsObj) : Result JsObj :=
  if forallb (fun k => truthy (prop o k)) keys
  then Ok o
  else Err (TypeError "ZodError").

#[global] Instance schemas : Schemas := {|
  insertUserSchema_parse := requires ["username"; "password"; "name"];
  insertPatientSchema_parse := requires ["name"; "ageGroup"];
  insertVaccinationSchema_parse := requires ["patientId"; "vaccineId"];
  insertAppointmentSchema_parse := requires ["patientId"];
|}.

(** A request under session ["sid-1"] that names user [uid], on the clinic
    whose staff is [Fixtures.staff]. *)
Definition request (uid : Z) (b : JsObj) : Ctx t MemorySessions.t :=
  {| db := opening (Fixtures.storeOf Fixtures.staff);
     sessions := Fixtures.sessionsOf "sid-1" uid false;
     sessionID := "sid-1"; session := Some {| userId := JNum uid |};
     body := b; user := None; calls := [] |}.

(** A request whose session carries no user id. *)
Definition anonymous (b : JsObj) : Ctx t MemorySessions.t :=
  {| db := opening (Fixtures.storeOf Fixtures.staff);
     sessions := {| MemorySessions.entries := ∅; MemorySessions.broken := false |};
     sessionID := "sid-0"; session := Some {| userId := JUndefined |};
     body := b; user := None; calls := [] |}.

(** The same request while the store is down. *)
Definition duringOutage (uid : Z) : Ctx t MemorySessions.t :=
  {| db := opening (MemStorage.unavailable (Fixtures.storeOf Fixtures.staff));
     sessions := Fixtures.sessionsOf "sid-1" uid false;
     sessionID := "sid-1"; session := Some {| userId := JNum uid |};
     body := ∅; user := None; calls := [] |}.

(** A signup that arrives without a session on the request. *)
Definition withoutSession (b : JsObj) : Ctx MemStorage.t MemorySessions.t :=
  {| db := MemStorage.empty;
     sessions := {| MemorySessions.entries := ∅; MemorySessions.broken := false |};
     sessionID := "sid-0"; session := None;
     body := b; user := None; calls := [] |}.

Definition patientBody (name : string) (createdBy : Z) : JsObj :=
  <["name" := JStr name]>
  (<["ageGroup" := JStr "infant"]>
  (<["createdBy" := JNum createdBy]> ∅)).

End Clinic.

(** ** The QR symbol drawn by the client *)

(** [generateQRCodeSVG] of the client's QR component, up to the pattern it
    computes.  A string is the list of its UTF-16 code units, which is what
    [charCodeAt] reads. *)
Module QrCode.

Local Open Scope nat_scope.

Definition gridSize : nat := 25.

(** [(data.charCodeAt((i * gridSize + j) % data.length) + i + j) % 3] *)
Definition hash (data : list nat) (i j : nat) : nat :=
  (nth ((i * gridSize + j) mod length data) data 0 + i + j) mod 3.

(** [pattern[i][j] = hash > 0].  On the empty string the index is NaN,
    [charCodeAt] yields NaN and the comparison is false. *)
Definition cell (data : list nat) (i j : nat) : bool :=
  match data with
  | [] => false
  | _ => 0 <? hash data i j
  end.

Definition pattern (data : list nat) : list (list bool) :=
  map (fun i => map (fun j => cell data i j) (seq 0 gridSize)) (seq 0 gridSize).

(** The code units of an ASCII string. *)
Definition codes (s : string) : list nat :=
  map nat_of_ascii (String.list_ascii_of_string s).

End QrCode.

(** ** The session guard *)

Section GuardFacts.

Context {S T : Type} `{!IStorage S} `{!SessionStore T}.

Implicit Types c : Ctx S T.

Lemma truthy_userId_session c :
  truthy (session_userId c) = true -> exists s, session c = Some s.
Proof.
  unfold session_userId. destruct (session c) as [s|]; [eauto | discriminate].
Qed.

(** *** How the gates run, case by case *)

Lemma requireAuth_run_anonymous c :
  truthy (session_userId c) = false ->
  requireAuth c = (Ok (Sent 401 (Message "Unauthorized")), c).
Proof.
  intros Hno. unfold requireAuth, bind, read. cbn. now rewrite Hno.
Qed.

Lemma requireAuth_run_rejected c found t' report :
  truthy (session_userId c) = true ->
  getUser (session_userId c) (db c) = Ok found ->
  missing_or_inactive found ->
  store_destroy (sessionID c) (sessions c) = (t', report) ->
  requireAuth c =
    (Ok (Sent 401 (Message "Unauthorized")),
     destroyed t' (logged (CallGetUser (session_userId c)) c)).
Proof.
  intros Hid Hget Hbad Hdestroy.
  destruct (truthy_userId_session c Hid) as [s Hs].
  unfold requireAuth, bind, read, await_getUser. cbn.
  rewrite Hid. cbn. rewrite Hget.
  destruct found as [u|]; cbn in Hbad; [rewrite Hbad |];
    unfold session_destroy, bind; cbn; now rewrite Hs, Hdestroy.
Qed.

Lemma requireAuth_run_accepted c u :
  truthy (session_userId c) = true ->
  getUser (session_userId c) (db c) = Ok (Some u) ->
  truthy (prop u "isActive") = true ->
  requireAuth c =
    (Ok NextCalled,
     let c' := logged (CallGetUser (session_userId c)) c in
     {| db := db c'; sessions := sessions c'; sessionID := sessionID c';
        session := session c'; body := body c'; user := Some u;
        calls := calls c' |}).
Proof.
  intros Hid Hget Hactive.
  unfold requireAuth, bind, read, await_getUser. cbn.
  rewrite Hid. cbn. now rewrite Hget, Hactive.
Qed.

Lemma requireAuth_run_failed c e :
  truthy (session_userId c) = true ->
  getUser (session_userId c) (db c) = Err e ->
  requireAuth c = (Err e, logged (CallGetUser (session_userId c)) c).
Proof.
  intros Hid Hget.
  unfold requireAuth, bind, read, await_getUser. cbn.
  rewrite Hid. cbn. now rewrite Hget.
Qed.

Lemma requireAdmin_run_anonymous c :
  truthy (session_userId c) = false ->
  requireAdmin c = (Ok (Sent 401 (Message "Unauthorized")), c).
Proof.
  intros Hno. unfold requireAdmin, bind, read. cbn. now rewrite Hno.
Qed.

Lemma requireAdmin_run_found c found :
  truthy (session_userId c) = true ->
  getUser (session_userId c) (db c) = Ok found ->
  requireAdmin c =
    (match found with
     | Some u =>
         if strict_eq (prop u "role") (JStr "admin")
         then Ok NextCalled
         else Ok (Sent 403 (Message "Admin access required"))
     | None => Ok (Sent 403 (Message "Admin access required"))
     end,
     logged (CallGetUser (session_userId c)) c).
Proof.
  intros Hid Hget.
  unfold requireAdmin, bind, read, await_getUser. cbn.
  rewrite Hid. cbn. rewrite Hget.
  destruct found as [u|]; [| reflexivity].
  now destruct (strict_eq (prop u "role") (JStr "admin")).
Qed.

Lemma requireAdmin_run_failed c e :
  truthy (session_userId c) = true ->
  getUser (session_userId c) (db c) = Err e ->
  requireAdmin c = (Err e, logged (CallGetUser (session_userId c)) c).
Proof.
  intros Hid Hget.
  unfold requireAdmin, bind, read, await_getUser. cbn.
  rewrite Hid. cbn. now rewrite Hget.
Qed.



(** [requireAdmin] never reads [isActive]: a row is judged by its role
    alone. *)
Lemma requireAdmin_role_only c u :
  truthy (session_userId c) = true ->
  getUser (session_userId c) (db c) = Ok (Some u) ->
  fst (requireAdmin c) =
    if strict_eq (prop u "role") (JStr "admin")
    then Ok NextCalled
    else Ok (Sent 403 (Message "Admin access required")).
Proof.
  intros Hid Hget. now rewrite (requireAdmin_run_found c (Some u) Hid Hget).
Qed.

(** The gate of [server/routes.ts] lets every request through whose
    session carries a user id, without asking the store. *)
Lemma requireAuth_sessionOnly_run c :
  requireAuth_sessionOnly c =
    (if truthy (session_userId c)
     then Ok NextCalled
     else Ok (Sent 401 (Message "Unauthorized")), c).
Proof.
  unfold requireAuth_sessionOnly, bind, read. cbn.
  now destruct (truthy (session_userId c)).
Qed.

(** *** The properties of the guard *)

(** C5: a request whose session carries no user id is answered 401
    "Unauthorized" and nothing else happens: the context, and with it the
    log of storage calls and the store, is the one the gate was given.
    The same holds for the gate of [server/routes.ts]. *)
Theorem requireAuth_without_userId c :
  truthy (session_userId c) = false ->
  requireAuth c = (Ok (Sent 401 (Message "Unauthorized")), c)
  /\ calls (snd (requireAuth c)) = calls c
  /\ db (snd (requireAuth c)) = db c
  /\ requireAuth_sessionOnly c = (Ok (Sent 401 (Message "Unauthorized")), c).
Proof.
  intros Hno. rewrite (requireAuth_run_anonymous c Hno).
  rewrite requireAuth_sessionOnly_run, Hno. repeat split.
Qed.

(** C1: when the session's user id is looked up and the store returns no
    row, or a row whose active flag is false, the [requireAuth] that
    stands beside the signup route answers 401 "Unauthorized", takes the
    session off the request and has the session store destroy it.
    Whatever the store reports back, failure included, reaches nobody: the
    answer and the context do not depend on it.  The [requireAuth] of
    [server/routes.ts] misses all of this: on the same request it makes no
    lookup, keeps the session and calls [next]. *)
Theorem requireAuth_missing_or_inactive c found t' report :
  truthy (session_userId c) = true ->
  getUser (session_userId c) (db c) = Ok found ->
  missing_or_inactive found ->
  store_destroy (sessionID c) (sessions c) = (t', report) ->
  (fst (requireAuth c) = Ok (Sent 401 (Message "Unauthorized"))
   /\ session (snd (requireAuth c)) = None
   /\ sessions (snd (requireAuth c)) = t'
   /\ user (snd (requireAuth c)) = user c
   /\ db (snd (requireAuth c)) = db c
   /\ calls (snd (requireAuth c)) = (calls c ++ [CallGetUser (session_userId c)])%list)
  /\ requireAuth_sessionOnly c = (Ok NextCalled, c).
Proof.
  intros Hid Hget Hbad Hdestroy.
  rewrite (requireAuth_run_rejected c found t' report Hid Hget Hbad Hdestroy).
  rewrite requireAuth_sessionOnly_run, Hid.
  repeat split.
Qed.

(** C3, as the code has it: when the session's user id resolves to a row
    whose active flag is true, [requireAuth] puts that row on the request
    exactly as the store returned it, password property included, and
    calls [next].  One lookup is made; session and stores stay as they
    were. *)
Theorem requireAuth_attaches_store_row c u :
  truthy (session_userId c) = true ->
  getUser (session_userId c) (db c) = Ok (Some u) ->
  truthy (prop u "isActive") = true ->
  fst (requireAuth c) = Ok NextCalled
  /\ user (snd (requireAuth c)) = Some u
  /\ session (snd (requireAuth c)) = session c
  /\ sessions (snd (requireAuth c)) = sessions c
  /\ db (snd (requireAuth c)) = db c
  /\ calls (snd (requireAuth c)) = (calls c ++ [CallGetUser (session_userId c)])%list.
Proof.
  intros Hid Hget Hactive.
  rewrite (requireAuth_run_accepted c u Hid Hget Hactive). repeat split.
Qed.

(** C2, as the code has it: [requireAdmin] answers 401 "Unauthorized"
    without a lookup when the session carries no user id; otherwise it
    looks the user up once and answers 403 "Admin access required" when
    there is no row, and, for a row whose active flag is true, answers
    403 when the role is not ['admin'] and calls [next] when it is.  In
    each of these cases the resulting context is the given one with at
    most the lookup logged.  And on every request whatever, a deactivated
    row and a failing store included, the session on the request, the
    session store, the user on the request and the user store come out as
    they went in: the session is never destroyed and no user is ever put
    on the request. *)
Theorem requireAdmin_resolution c :
  (truthy (session_userId c) = false ->
     requireAdmin c = (Ok (Sent 401 (Message "Unauthorized")), c))
  /\ (truthy (session_userId c) = true ->
      getUser (session_userId c) (db c) = Ok None ->
        requireAdmin c =
          (Ok (Sent 403 (Message "Admin access required")),
           logged (CallGetUser (session_userId c)) c))
  /\ (forall u,
        truthy (session_userId c) = true ->
        getUser (session_userId c) (db c) = Ok (Some u) ->
        truthy (prop u "isActive") = true ->
        (prop u "role" <> JStr "admin" ->
           requireAdmin c =
             (Ok (Sent 403 (Message "Admin access required")),
              logged (CallGetUser (session_userId c)) c))
        /\ (prop u "role" = JStr "admin" ->
              requireAdmin c =
                (Ok NextCalled, logged (CallGetUser (session_userId c)) c)))
  /\ (session (snd (requireAdmin c)) = session c
      /\ sessions (snd (requireAdmin c)) = sessions c
      /\ sessionID (snd (requireAdmin c)) = sessionID c
      /\ user (snd (requireAdmin c)) = user c
      /\ db (snd (requireAdmin c)) = db c).
Proof.
  split; [apply requireAdmin_run_anonymous | split; [| split]].
  - intros Hid Hget. now rewrite (requireAdmin_run_found c None Hid Hget).
  - intros u Hid Hget _.
    rewrite (requireAdmin_run_found c (Some u) Hid Hget). unfold strict_eq.
    split; intros Hrole.
    + now rewrite bool_decide_eq_false_2.
    + now rewrite bool_decide_eq_true_2.
  - destruct (truthy (session_userId c)) eqn:Hid.
    + destruct (getUser (session_userId c) (db c)) as [found|e] eqn:Hget.
      * rewrite (requireAdmin_run_found c found Hid Hget). repeat split.
      * rewrite (requireAdmin_run_failed c e Hid Hget). repeat split.
    + rewrite (requireAdmin_run_anonymous c Hid). repeat split.
Qed.


End GuardFacts.

(** ** Account creation and login *)

Section AccountFacts.

Context {S T : Type} `{!IStorage S} `{!SessionStore T} `{!Bcrypt}.

Implicit Types c : Ctx S T.

Lemma signup_incomplete_split b :
  signup_complete b = false ->
  negb (truthy (prop b "username")) || negb (truthy (prop b "password"))
    || negb (truthy (prop b "name")) = true.
Proof.
  unfold signup_complete.
  destruct (truthy (prop b "username")), (truthy (prop b "password")),
    (truthy (prop b "name")); cbn; congruence.
Qed.

Lemma signup_complete_split b :
  signup_complete b = true ->
  negb (truthy (prop b "username")) || negb (truthy (prop b "password"))
    || negb (truthy (prop b "name")) = false.
Proof.
  unfold signup_complete.
  destruct (truthy (prop b "username")), (truthy (prop b "password")),
    (truthy (prop b "name")); cbn; congruence.
Qed.

Ltac enter_signup Hc :=
  unfold signup, try_catch, bind, read, await_getUserByUsername,
    await_getAllUsers, await_createUser; cbn;
  rewrite Hc; cbn.

(** *** How signup runs *)

Lemma signup_run_incomplete c :
  signup_complete (body c) = false ->
  signup c =
    (Ok (Sent 400 (Message "Username, password, and name are required")), c).
Proof.
  intros Hc. apply signup_incomplete_split in Hc. now enter_signup Hc.
Qed.

Lemma signup_run_taken c u :
  signup_complete (body c) = true ->
  getUserByUsername (prop (body c) "username") (db c) = Ok (Some u) ->
  signup c =
    (Ok (Sent 400 (Message "Username already exists")),
     logged (CallGetUserByUsername (prop (body c) "username")) c).
Proof.
  intros Hc Hget. apply signup_complete_split in Hc.
  enter_signup Hc. now rewrite Hget.
Qed.

Lemma signup_run_lookup_failed c e :
  signup_complete (body c) = true ->
  getUserByUsername (prop (body c) "username") (db c) = Err e ->
  signup c =
    (Ok (Sent 500 (Message "Signup failed")),
     logged (CallGetUserByUsername (prop (body c) "username")) c).
Proof.
  intros Hc Hget. apply signup_complete_split in Hc.
  enter_signup Hc. now rewrite Hget.
Qed.

Lemma signup_run_calls c l :
  signup_complete (body c) = true ->
  getUserByUsername (prop (body c) "username") (db c) = Ok None ->
  getAllUsers (db c) = Ok l ->
  calls (snd (signup c)) = (calls c ++ signup_calls (body c) l)%list.
Proof.
  intros Hc Hget Hall. apply signup_complete_split in Hc.
  enter_signup Hc. rewrite Hget. cbn. rewrite Hall. cbn.
  unfold signup_calls, signupFields.
  destruct (createUser _ (db c)) as [[row d']|e]; cbn.
  - unfold set_session_userId, session_save. cbn.
    destruct (session c) as [s|]; cbn.
    + destruct (store_set _ _ _); cbn. now rewrite <- !app_assoc.
    + now rewrite <- !app_assoc.
  - now rewrite <- !app_assoc.
Qed.

Lemma signup_run_created c l row d' s t' report :
  signup_complete (body c) = true ->
  getUserByUsername (prop (body c) "username") (db c) = Ok None ->
  getAllUsers (db c) = Ok l ->
  createUser (signupFields (body c) (assignRole (length l) (prop (body c) "isFirstUser")))
             (db c) = Ok (row, d') ->
  session c = Some s ->
  store_set (sessionID c) {| userId := prop row "id" |} (sessions c) = (t', report) ->
  fst (signup c) = Ok (Sent 200 (UserEnvelope (withoutPassword row)))
  /\ db (snd (signup c)) = d'
  /\ session (snd (signup c)) = Some {| userId := prop row "id" |}
  /\ sessions (snd (signup c)) = t'.
Proof.
  intros Hc Hget Hall Hcreate Hs Hset. apply signup_complete_split in Hc.
  enter_signup Hc. rewrite Hget. cbn. rewrite Hall. cbn.
  unfold signupFields in Hcreate. rewrite Hcreate. cbn.
  unfold set_session_userId, session_save. cbn. rewrite Hs. cbn.
  rewrite Hset. cbn. repeat split.
Qed.

(** *** How login runs *)

Lemma login_complete_split b :
  login_complete b = true ->
  negb (truthy (prop b "username")) || negb (truthy (prop b "password")) = false.
Proof.
  unfold login_complete.
  destruct (truthy (prop b "username")), (truthy (prop b "password"));
    cbn; congruence.
Qed.

Ltac enter_login Hc :=
  unfold login, try_catch, bind, read, await_getUserByUsername,
    await_bcrypt_compare; cbn;
  rewrite Hc; cbn.

Lemma login_run_denied c found :
  login_complete (body c) = true ->
  getUserByUsername (prop (body c) "username") (db c) = Ok found ->
  login_denied (prop (body c) "password") found ->
  login c =
    (Ok (Sent 401 (Message "Invalid credentials")),
     logged (CallGetUserByUsername (prop (body c) "username")) c).
Proof.
  intros Hc Hget Hden. apply login_complete_split in Hc.
  enter_login Hc. rewrite Hget.
  destruct Hden as [| u Hinactive | u Hactive Hcmp].
  - reflexivity.
  - now rewrite Hinactive.
  - rewrite Hactive. cbn. now rewrite Hcmp.
Qed.

Lemma login_run_granted c u s t' report :
  login_complete (body c) = true ->
  getUserByUsername (prop (body c) "username") (db c) = Ok (Some u) ->
  truthy (prop u "isActive") = true ->
  bcrypt_compare (prop (body c) "password") (prop u "password") = Ok true ->
  session c = Some s ->
  store_set (sessionID c) {| userId := prop u "id" |} (sessions c) = (t', report) ->
  login c =
    (Ok (Sent 200 (UserEnvelope (withoutPassword u))),
     signedIn (prop u "id") t'
       (logged (CallGetUserByUsername (prop (body c) "username")) c)).
Proof.
  intros Hc Hget Hactive Hcmp Hs Hset. apply login_complete_split in Hc.
  enter_login Hc. rewrite Hget, Hactive. cbn. rewrite Hcmp. cbn.
  unfold set_session_userId, session_save. cbn. rewrite Hs. cbn.
  now rewrite Hset.
Qed.

(** *** The properties of signup and login *)

(** C8, as the code has it: a signup request whose username belongs to
    an existing user is answered with status 400 and a message, and
    nothing is written: the user store, the session and the session store
    are as before and no [createUser] call is made.  When username,
    password and name are all present the message is "Username already
    exists" and the only storage call is the username lookup; when one of
    them is missing the request is turned away before any lookup. *)
Theorem signup_existing_username c u :
  getUserByUsername (prop (body c) "username") (db c) = Ok (Some u) ->
  (exists m, fst (signup c) = Ok (Sent 400 (Message m)))
  /\ db (snd (signup c)) = db c
  /\ session (snd (signup c)) = session c
  /\ sessions (snd (signup c)) = sessions c
  /\ (calls (snd (signup c)) = calls c
      \/ calls (snd (signup c)) =
           (calls c ++ [CallGetUserByUsername (prop (body c) "username")])%list)
  /\ (signup_complete (body c) = true ->
        signup c =
          (Ok (Sent 400 (Message "Username already exists")),
           logged (CallGetUserByUsername (prop (body c) "username")) c))
  /\ (signup_complete (body c) = false ->
        signup c =
          (Ok (Sent 400 (Message "Username, password, and name are required")), c)).
Proof.
  intros Hget.
  destruct (signup_complete (body c)) eqn:Hc.
  - rewrite (signup_run_taken c u Hc Hget). cbn.
    repeat split; eauto; discriminate.
  - rewrite (signup_run_incomplete c Hc). cbn.
    repeat split; eauto; discriminate.
Qed.

(** C10: a signup that reaches [createUser] hands it an object whose
    [password] property is the request's [password] value as received;
    the login route decides by [bcrypt.compare] of the request's password
    against the stored row's [password]: a mismatch is answered 401, a
    match signs the user in. *)
Theorem signup_forwards_password_login_compares c :
  (forall l,
     signup_complete (body c) = true ->
     getUserByUsername (prop (body c) "username") (db c) = Ok None ->
     getAllUsers (db c) = Ok l ->
     exists fields,
       calls (snd (signup c)) =
         (calls c ++ [CallGetUserByUsername (prop (body c) "username");
                      CallGetAllUsers; CallCreateUser fields])%list
       /\ fields !! "password" = Some (prop (body c) "password"))
  /\ (forall u,
        login_complete (body c) = true ->
        getUserByUsername (prop (body c) "username") (db c) = Ok (Some u) ->
        truthy (prop u "isActive") = true ->
        (bcrypt_compare (prop (body c) "password") (prop u "password") = Ok false ->
           fst (login c) = Ok (Sent 401 (Message "Invalid credentials")))
        /\ (forall s,
              bcrypt_compare (prop (body c) "password") (prop u "password") = Ok true ->
              session c = Some s ->
              fst (login c) = Ok (Sent 200 (UserEnvelope (withoutPassword u)))
              /\ session (snd (login c)) = Some {| userId := prop u "id" |})).
Proof.
  split.
  - intros l Hc Hget Hall.
    exists (signupFields (body c)
              (assignRole (length l) (prop (body c) "isFirstUser"))).
    split.
    + apply (signup_run_calls c l Hc Hget Hall).
    + unfold signupFields, newUserFields.
      rewrite lookup_insert_ne by discriminate.
      apply lookup_insert_eq.
  - intros u Hc Hget Hactive. split.
    + intros Hcmp.
      rewrite (login_run_denied c (Some u) Hc Hget); [reflexivity |].
      now apply denied_mismatch.
    + intros s Hcmp Hs.
      destruct (store_set (sessionID c) {| userId := prop u "id" |} (sessions c))
        as [t' report] eqn:Hset.
      rewrite (login_run_granted c u s t' report Hc Hget Hactive Hcmp Hs Hset).
      split; reflexivity.
Qed.

(** A complete login for an existing, active user whose password
    comparison throws ends in the [catch] block. *)
Lemma login_run_compare_failed c u e :
  login_complete (body c) = true ->
  getUserByUsername (prop (body c) "username") (db c) = Ok (Some u) ->
  truthy (prop u "isActive") = true ->
  bcrypt_compare (prop (body c) "password") (prop u "password") = Err e ->
  login c =
    (Ok (Sent 500 (Message "Login failed")),
     logged (CallGetUserByUsername (prop (body c) "username")) c).
Proof.
  intros Hc Hget Hactive Hcmp. apply login_complete_split in Hc.
  enter_login Hc. rewrite Hget, Hactive. cbn. now rewrite Hcmp.
Qed.

(** C6, as the code has it: [requireAuth] answers 401 "Unauthorized" both
    to a request without a session user id and to a request whose session
    names a missing or inactive user; login answers 401 "Invalid
    credentials" to every complete request it turns away for an unknown
    name, an inactive account or a password that does not match.  The
    other failures have answers of their own: a complete login for an
    existing, active user whose password comparison throws is answered
    500 "Login failed", and [requireAdmin] answers 403 "Admin access
    required" to a session that names a missing user, but 401
    "Unauthorized" to a request without a session user id. *)
Theorem authentication_failure_replies :
  (forall (c1 c2 : Ctx S T) found,
     truthy (session_userId c1) = false ->
     truthy (session_userId c2) = true ->
     getUser (session_userId c2) (db c2) = Ok found ->
     missing_or_inactive found ->
     fst (requireAuth c1) = Ok (Sent 401 (Message "Unauthorized"))
     /\ fst (requireAuth c2) = Ok (Sent 401 (Message "Unauthorized")))
  /\ (forall (c1 c2 : Ctx S T) found1 found2,
        login_complete (body c1) = true ->
        login_complete (body c2) = true ->
        getUserByUsername (prop (body c1) "username") (db c1) = Ok found1 ->
        getUserByUsername (prop (body c2) "username") (db c2) = Ok found2 ->
        login_denied (prop (body c1) "password") found1 ->
        login_denied (prop (body c2) "password") found2 ->
        fst (login c1) = Ok (Sent 401 (Message "Invalid credentials"))
        /\ fst (login c2) = Ok (Sent 401 (Message "Invalid credentials")))
  /\ (forall (c : Ctx S T) u e,
        login_complete (body c) = true ->
        getUserByUsername (prop (body c) "username") (db c) = Ok (Some u) ->
        truthy (prop u "isActive") = true ->
        bcrypt_compare (prop (body c) "password") (prop u "password") = Err e ->
        fst (login c) = Ok (Sent 500 (Message "Login failed")))
  /\ (forall (c1 c2 : Ctx S T),
        truthy (session_userId c1) = false ->
        truthy (session_userId c2) = true ->
        getUser (session_userId c2) (db c2) = Ok None ->
        fst (requireAdmin c1) = Ok (Sent 401 (Message "Unauthorized"))
        /\ fst (requireAdmin c2) = Ok (Sent 403 (Message "Admin access required"))).
Proof.
  split; [| split; [| split]].
  - intros c1 c2 found Hno Hid Hget Hbad.
    rewrite (requireAuth_run_anonymous c1 Hno).
    destruct (store_destroy (sessionID c2) (sessions c2)) as [t' report] eqn:Hd.
    now rewrite (requireAuth_run_rejected c2 found t' report Hid Hget Hbad Hd).
  - intros c1 c2 found1 found2 Hc1 Hc2 Hget1 Hget2 Hden1 Hden2.
    rewrite (login_run_denied c1 found1 Hc1 Hget1 Hden1).
    now rewrite (login_run_denied c2 found2 Hc2 Hget2 Hden2).
  - intros c u e Hc Hget Hactive Hcmp.
    now rewrite (login_run_compare_failed c u e Hc Hget Hactive Hcmp).
  - intros c1 c2 Hno Hid Hget.
    rewrite (requireAdmin_run_anonymous c1 Hno).
    now rewrite (requireAdmin_run_found c2 None Hid Hget).
Qed.

End AccountFacts.

(** ** Role assignment at account creation *)

Lemma assignRole_admin_iff n flag :
  assignRole n flag = JStr "admin" <-> (n = 0%nat \/ truthy flag = true).
Proof.
  unfold assignRole. destruct n as [|n]; cbn.
  - tauto.
  - destruct (truthy flag); split; intros Hx; try tauto; try discriminate.
    destruct Hx; discriminate.
Qed.

Lemma assignRole_health_worker_iff n flag :
  assignRole n flag = JStr "health_worker" <-> (n <> 0%nat /\ truthy flag = false).
Proof.
  unfold assignRole. destruct n as [|n]; cbn.
  - split; [discriminate | tauto].
  - destruct (truthy flag); split; intros Hx; try discriminate; auto.
    destruct Hx; discriminate.
Qed.

Lemma signupFields_role b role : prop (signupFields b role) "role" = role.
Proof.
  unfold prop, signupFields, newUserFields.
  rewrite !lookup_insert_ne by discriminate. now rewrite lookup_insert_eq.
Qed.

Lemma signupFields_username b role :
  prop (signupFields b role) "username" = prop b "username".
Proof.
  unfold prop at 1. unfold signupFields, newUserFields.
  now rewrite lookup_insert_eq.
Qed.

Lemma with_id_prop (i : JsVal) (o : JsObj) k :
  k <> "id" -> prop (<["id" := i]> o) k = prop o k.
Proof. intros Hk. unfold prop. now rewrite lookup_insert_ne by congruence. Qed.

(** Creating a user in the reference store when the name is free. *)
Lemma insert_row_fresh fields (d : MemStorage.t) :
  MemStorage.available d = true ->
  MemStorage.by_column "username" (prop fields "username") d = None ->
  MemStorage.insert_row fields d =
    Ok (<["id" := JNum (MemStorage.nextId d)]> fields,
        {| MemStorage.rows :=
             MemStorage.rows d ++ [<["id" := JNum (MemStorage.nextId d)]> fields];
           MemStorage.nextId := MemStorage.nextId d + 1;
           MemStorage.available := true |}).
Proof.
  intros Ha Hfree. unfold MemStorage.insert_row. rewrite Ha, Hfree. reflexivity.
Qed.

(** The scenario of the first two accounts, on the reference store: the
    first signup meets an empty store, the second one meets the store the
    first one left, under another username and without the flag. *)
Lemma first_two_signups {T : Type} `{!SessionStore T}
    (c1 c2 : Ctx MemStorage.t T) s1 s2 :
  db c1 = MemStorage.empty ->
  db c2 = db (snd (signup c1)) ->
  signup_complete (body c1) = true ->
  signup_complete (body c2) = true ->
  session c1 = Some s1 ->
  session c2 = Some s2 ->
  prop (body c1) "username" <> prop (body c2) "username" ->
  truthy (prop (body c2) "isFirstUser") = false ->
  exists row1 row2,
    fst (signup c1) = Ok (Sent 200 (UserEnvelope (withoutPassword row1)))
    /\ prop row1 "role" = JStr "admin"
    /\ fst (signup c2) = Ok (Sent 200 (UserEnvelope (withoutPassword row2)))
    /\ prop row2 "role" = JStr "health_worker"
    /\ MemStorage.rows (db (snd (signup c2))) = [row1; row2].
Proof.
  intros Hdb1 Hdb2 Hc1 Hc2 Hs1 Hs2 Hne Hflag.
  set (f1 := signupFields (body c1) (assignRole 0 (prop (body c1) "isFirstUser"))).
  set (row1 := <["id" := JNum 1]> f1).
  set (d1 := {| MemStorage.rows := [row1]; MemStorage.nextId := 2;
                MemStorage.available := true |}).
  assert (Hget1 : getUserByUsername (prop (body c1) "username") (db c1) = Ok None)
    by now rewrite Hdb1.
  assert (Hall1 : getAllUsers (db c1) = Ok []) by now rewrite Hdb1.
  assert (Hcreate1 : createUser f1 (db c1) = Ok (row1, d1)) by now rewrite Hdb1.
  destruct (store_set (sessionID c1) {| userId := prop row1 "id" |} (sessions c1))
    as [t1 r1] eqn:Hset1.
  destruct (signup_run_created c1 [] row1 d1 s1 t1 r1 Hc1 Hget1 Hall1 Hcreate1 Hs1 Hset1)
    as (Hreply1 & Hd1 & _).
  rewrite Hd1 in Hdb2.
  assert (Hname1 : prop row1 "username" = prop (body c1) "username").
  { unfold row1, f1. rewrite with_id_prop by discriminate.
    apply signupFields_username. }
  set (f2 := signupFields (body c2) (assignRole 1 (prop (body c2) "isFirstUser"))).
  set (row2 := <["id" := JNum 2]> f2).
  set (d2 := {| MemStorage.rows := [row1; row2]; MemStorage.nextId := 3;
                MemStorage.available := true |}).
  assert (Hfree : MemStorage.by_column "username" (prop (body c2) "username") d1 = None).
  { unfold MemStorage.by_column, d1. cbn. unfold strict_eq.
    rewrite Hname1. now rewrite bool_decide_eq_false_2. }
  assert (Hget2 : getUserByUsername (prop (body c2) "username") (db c2) = Ok None).
  { rewrite Hdb2.
    change (Ok (MemStorage.by_column "username" (prop (body c2) "username") d1)
            = Ok None).
    now rewrite Hfree. }
  assert (Hall2 : getAllUsers (db c2) = Ok [row1]) by now rewrite Hdb2.
  assert (Hcreate2 : createUser f2 (db c2) = Ok (row2, d2)).
  { rewrite Hdb2. change (MemStorage.insert_row f2 d1 = Ok (row2, d2)).
    rewrite insert_row_fresh; [reflexivity | reflexivity |].
    unfold f2. now rewrite signupFields_username. }
  destruct (store_set (sessionID c2) {| userId := prop row2 "id" |} (sessions c2))
    as [t2 r2] eqn:Hset2.
  destruct (signup_run_created c2 [row1] row2 d2 s2 t2 r2 Hc2 Hget2 Hall2 Hcreate2 Hs2 Hset2)
    as (Hreply2 & Hd2 & _).
  exists row1, row2. rewrite Hreply1, Hreply2, Hd2.
  split; [reflexivity |]. split.
  { unfold row1, f1. rewrite with_id_prop by discriminate.
    now rewrite signupFields_role. }
  split; [reflexivity |]. split; [| reflexivity].
  unfold row2, f2. rewrite with_id_prop by discriminate.
  rewrite signupFields_role. apply assignRole_health_worker_iff. now split.
Qed.

(** C4: the role given at account creation is ['admin'] exactly when no
    user exists yet or the request's first-user flag is set, and
    ['health_worker'] in every other case; this is the role in the object
    signup hands to [createUser], computed from the number of rows
    [getAllUsers] returned; and on the reference store the first signup
    into an empty store is made admin while a following signup without the
    flag is made health worker. *)
Theorem role_assignment_at_signup :
  (forall n flag,
     assignRole n flag = JStr "admin" <-> (n = 0%nat \/ truthy flag = true))
  /\ (forall n flag,
        assignRole n flag = JStr "health_worker"
        <-> (n <> 0%nat /\ truthy flag = false))
  /\ (forall {S T : Type} `{!IStorage S} `{!SessionStore T} (c : Ctx S T) l,
        signup_complete (body c) = true ->
        getUserByUsername (prop (body c) "username") (db c) = Ok None ->
        getAllUsers (db c) = Ok l ->
        exists fields,
          calls (snd (signup c)) =
            (calls c ++ [CallGetUserByUsername (prop (body c) "username");
                         CallGetAllUsers; CallCreateUser fields])%list
          /\ prop fields "role" =
               assignRole (length l) (prop (body c) "isFirstUser"))
  /\ (forall {T : Type} `{!SessionStore T} (c1 c2 : Ctx MemStorage.t T) s1 s2,
        db c1 = MemStorage.empty ->
        db c2 = db (snd (signup c1)) ->
        signup_complete (body c1) = true ->
        signup_complete (body c2) = true ->
        session c1 = Some s1 ->
        session c2 = Some s2 ->
        prop (body c1) "username" <> prop (body c2) "username" ->
        truthy (prop (body c2) "isFirstUser") = false ->
        exists row1 row2,
          fst (signup c1) = Ok (Sent 200 (UserEnvelope (withoutPassword row1)))
          /\ prop row1 "role" = JStr "admin"
          /\ fst (signup c2) = Ok (Sent 200 (UserEnvelope (withoutPassword row2)))
          /\ prop row2 "role" = JStr "health_worker"
          /\ MemStorage.rows (db (snd (signup c2))) = [row1; row2]).
Proof.
  split; [exact assignRole_admin_iff |].
  split; [exact assignRole_health_worker_iff |].
  split.
  - intros S T IS SS c l Hc Hget Hall.
    exists (signupFields (body c) (assignRole (length l) (prop (body c) "isFirstUser"))).
    split; [apply (signup_run_calls c l Hc Hget Hall) | apply signupFields_role].
  - intros T SS c1 c2 s1 s2. apply first_two_signups.
Qed.

(** ** The guard and the account routes on concrete requests *)

Import Fixtures.

Lemma requireAuth_without_userId_witness :
  requireAuth (anonymous (storeOf staff) ∅)
    = (Ok (Sent 401 (Message "Unauthorized")), anonymous (storeOf staff) ∅)
  /\ calls (snd (requireAuth (anonymous (storeOf staff) ∅))) = [].
Proof.
  destruct (requireAuth_without_userId (anonymous (storeOf staff) ∅))
    as (Hrun & Hcalls & _); [reflexivity |].
  split; [exact Hrun | exact Hcalls].
Defined.

(** Session "sid-1" names user 42, whose row is inactive, and the session
    store fails when asked to destroy.  The gate beside the signup route
    answers 401 and takes the session off the request; the gate of
    [server/routes.ts] calls [next] with the session in place and without
    a lookup. *)
Lemma requireAuth_missing_or_inactive_witness :
  store_destroy "sid-1" (sessionsOf "sid-1" 42 true)
    = (sessionsOf "sid-1" 42 true, Some (StoreError "session store failure"))
  /\ fst (requireAuth (request staff 42 true ∅))
       = Ok (Sent 401 (Message "Unauthorized"))
  /\ session (snd (requireAuth (request staff 42 true ∅))) = None
  /\ fst (requireAuth_sessionOnly (request staff 42 true ∅)) = Ok NextCalled
  /\ session (snd (requireAuth_sessionOnly (request staff 42 true ∅)))
       = Some {| userId := JNum 42 |}
  /\ calls (snd (requireAuth_sessionOnly (request staff 42 true ∅))) = [].
Proof.
  assert (Hd : store_destroy "sid-1" (sessionsOf "sid-1" 42 true)
               = (sessionsOf "sid-1" 42 true,
                  Some (StoreError "session store failure"))) by reflexivity.
  split; [exact Hd |].
  destruct (requireAuth_missing_or_inactive (request staff 42 true ∅)
              (Some ravi) (sessionsOf "sid-1" 42 true)
              (Some (StoreError "session store failure")))
    as ((Hreply & Hsession & _) & Hlegacy).
  - reflexivity.
  - vm_compute. reflexivity.
  - reflexivity.
  - exact Hd.
  - split; [exact Hreply | split; [exact Hsession |]].
    rewrite Hlegacy. repeat split.
Defined.

(** Session "sid-1" names the active user 7.  The row put on the request is
    the stored row; it is not the row with the password taken out, and the
    password can be read from it. *)
Lemma requireAuth_attaches_password :
  getUser (JNum 7) (storeOf staff) = Ok (Some asha)
  /\ fst (requireAuth (request staff 7 false ∅)) = Ok NextCalled
  /\ user (snd (requireAuth (request staff 7 false ∅))) <> Some (withoutPassword asha)
  /\ (user (snd (requireAuth (request staff 7 false ∅))) ≫= (.!! "password"))
       = Some (JStr "bcrypt:pw").
Proof.
  split; [vm_compute; reflexivity |].
  split; [vm_compute; reflexivity |].
  split; [| vm_compute; reflexivity].
  intros Heq.
  apply (f_equal (fun o : option JsObj => o ≫= (.!! "password"))) in Heq.
  vm_compute in Heq. discriminate Heq.
Qed.

Lemma requireAuth_attaches_store_row_witness :
  fst (requireAuth (request staff 7 false ∅)) = Ok NextCalled
  /\ user (snd (requireAuth (request staff 7 false ∅))) = Some asha.
Proof.
  destruct (requireAuth_attaches_store_row (request staff 7 false ∅) asha)
    as (Hreply & Huser & _).
  - reflexivity.
  - vm_compute. reflexivity.
  - reflexivity.
  - split; [exact Hreply | exact Huser].
Defined.

(** Session "sid-1" names user 99, who does not exist.  [requireAdmin]
    answers 403, not 401, and the session is still on the request and in
    the session store. *)
Lemma requireAdmin_missing_user_forbidden :
  getUser (JNum 99) (storeOf staff) = Ok None
  /\ fst (requireAdmin (request staff 99 false ∅))
       = Ok (Sent 403 (Message "Admin access required"))
  /\ fst (requireAdmin (request staff 99 false ∅))
       <> Ok (Sent 401 (Message "Unauthorized"))
  /\ session (snd (requireAdmin (request staff 99 false ∅)))
       = Some {| userId := JNum 99 |}
  /\ sessions (snd (requireAdmin (request staff 99 false ∅)))
       = sessionsOf "sid-1" 99 false.
Proof.
  split; [vm_compute; reflexivity |].
  split; [vm_compute; reflexivity |].
  split; [vm_compute; discriminate |].
  split; reflexivity.
Qed.

(** The deactivated administrator 3 is let through by [requireAdmin],
    where [requireAuth] turns the same request away. *)
Example requireAdmin_passes_deactivated_admin :
  fst (requireAdmin (request staff 3 false ∅)) = Ok NextCalled
  /\ fst (requireAuth (request staff 3 false ∅))
       = Ok (Sent 401 (Message "Unauthorized")).
Proof. split; vm_compute; reflexivity. Qed.

(** With the same broken session store the logout route, whose callback
    does look at the error, answers 500. *)
Example logout_reports_destroy_failure :
  fst (logout (request staff 42 true ∅)) = Ok (Sent 500 (Message "Logout failed"))
  /\ fst (logout (request staff 42 false ∅))
       = Ok (Sent 200 (Message "Logged out successfully")).
Proof. split; vm_compute; reflexivity. Qed.

(** The gate of [server/routes.ts] lets the deactivated user 42 through. *)
Example requireAuth_sessionOnly_passes_deactivated_user :
  fst (requireAuth_sessionOnly (request staff 42 false ∅)) = Ok NextCalled
  /\ calls (snd (requireAuth_sessionOnly (request staff 42 false ∅))) = [].
Proof. split; vm_compute; reflexivity. Qed.

Lemma requireAdmin_resolution_witness :
  requireAdmin (anonymous (storeOf staff) ∅)
    = (Ok (Sent 401 (Message "Unauthorized")), anonymous (storeOf staff) ∅)
  /\ fst (requireAdmin (request staff 99 false ∅))
       = Ok (Sent 403 (Message "Admin access required"))
  /\ fst (requireAdmin (request staff 7 false ∅))
       = Ok (Sent 403 (Message "Admin access required"))
  /\ fst (requireAdmin (request staff 1 false ∅)) = Ok NextCalled.
Proof.
  split; [| split; [| split]].
  - apply (requireAdmin_resolution (anonymous (storeOf staff) ∅)). reflexivity.
  - destruct (requireAdmin_resolution (request staff 99 false ∅)) as (_ & Hmiss & _).
    rewrite Hmiss; [reflexivity | reflexivity | vm_compute; reflexivity].
  - destruct (requireAdmin_resolution (request staff 7 false ∅)) as (_ & _ & Hrow & _).
    destruct (Hrow asha) as [Hno _];
      [reflexivity | vm_compute; reflexivity | reflexivity |].
    rewrite Hno; [reflexivity | vm_compute; discriminate].
  - destruct (requireAdmin_resolution (request staff 1 false ∅)) as (_ & _ & Hrow & _).
    destruct (Hrow meena) as [_ Hyes];
      [reflexivity | vm_compute; reflexivity | reflexivity |].
    rewrite Hyes; [reflexivity | vm_compute; reflexivity].
Defined.


(** A signup under the taken username "asha" that carries no password is
    turned away for the missing field, before the store is asked anything:
    the answer is not the duplicate-username one, and its status is 400. *)
Lemma signup_taken_username_without_password :
  getUserByUsername (prop (signupBody "asha" "" "Asha") "username") (storeOf staff)
    = Ok (Some asha)
  /\ signup (anonymous (storeOf staff) (signupBody "asha" "" "Asha"))
       = (Ok (Sent 400 (Message "Username, password, and name are required")),
          anonymous (storeOf staff) (signupBody "asha" "" "Asha"))
  /\ fst (signup (anonymous (storeOf staff) (signupBody "asha" "" "Asha")))
       <> Ok (Sent 400 (Message "Username already exists"))
  /\ (forall m,
        fst (signup (anonymous (storeOf staff) (signupBody "asha" "" "Asha")))
          <> Ok (Sent 409 (Message m))).
Proof.
  split; [vm_compute; reflexivity |].
  assert (Hrun : signup (anonymous (storeOf staff) (signupBody "asha" "" "Asha"))
                 = (Ok (Sent 400 (Message "Username, password, and name are required")),
                    anonymous (storeOf staff) (signupBody "asha" "" "Asha"))).
  { apply signup_run_incomplete. reflexivity. }
  rewrite Hrun. split; [reflexivity |].
  split; [discriminate | intros m; discriminate].
Qed.

Lemma signup_existing_username_witness :
  signup (anonymous (storeOf staff) (signupBody "asha" "pw2" "Asha"))
    = (Ok (Sent 400 (Message "Username already exists")),
       logged (CallGetUserByUsername (JStr "asha"))
         (anonymous (storeOf staff) (signupBody "asha" "pw2" "Asha")))
  /\ db (snd (signup (anonymous (storeOf staff) (signupBody "asha" "pw2" "Asha"))))
       = storeOf staff.
Proof.
  destruct (signup_existing_username
              (anonymous (storeOf staff) (signupBody "asha" "pw2" "Asha")) asha)
    as (_ & Hdb & _ & _ & _ & Htaken & _).
  - vm_compute. reflexivity.
  - split; [apply Htaken; reflexivity | exact Hdb].
Defined.

(** "alice" signs up with password "pw": [createUser] is handed "pw".
    "asha", whose stored hash matches "pw", logs in with it. *)
Lemma signup_forwards_password_login_compares_witness :
  (exists fields,
     calls (snd (signup (anonymous MemStorage.empty (signupBody "alice" "pw" "Alice"))))
       = [CallGetUserByUsername (JStr "alice"); CallGetAllUsers; CallCreateUser fields]
     /\ fields !! "password" = Some (JStr "pw"))
  /\ fst (login (anonymous (storeOf staff) (loginBody "asha" "pw")))
       = Ok (Sent 200 (UserEnvelope (withoutPassword asha)))
  /\ fst (login (anonymous (storeOf staff) (loginBody "asha" "guess")))
       = Ok (Sent 401 (Message "Invalid credentials")).
Proof.
  split; [| split].
  - destruct (signup_forwards_password_login_compares
                (anonymous MemStorage.empty (signupBody "alice" "pw" "Alice")))
      as [Hsignup _].
    destruct (Hsignup []) as (fields & Hcalls & Hpw);
      [reflexivity | reflexivity | reflexivity |].
    exists fields. split; [exact Hcalls | exact Hpw].
  - destruct (signup_forwards_password_login_compares
                (anonymous (storeOf staff) (loginBody "asha" "pw")))
      as [_ Hlogin].
    destruct (Hlogin asha) as [_ Hmatch];
      [reflexivity | vm_compute; reflexivity | reflexivity |].
    destruct (Hmatch {| userId := JUndefined |}) as [Hreply _];
      [reflexivity | reflexivity |].
    exact Hreply.
  - destruct (signup_forwards_password_login_compares
                (anonymous (storeOf staff) (loginBody "asha" "guess")))
      as [_ Hlogin].
    destruct (Hlogin asha) as [Hmismatch _];
      [reflexivity | vm_compute; reflexivity | reflexivity |].
    apply Hmismatch. reflexivity.
Defined.

(** No session against the deactivated user 42 at the gate; an unknown
    name, a deactivated account and a wrong password at login; a password
    sent as a number for the existing user "asha"; no session against a
    session naming the missing user 99 at the administrators' gate. *)
Lemma authentication_failure_replies_witness :
  (fst (requireAuth (anonymous (storeOf staff) ∅))
     = Ok (Sent 401 (Message "Unauthorized"))
   /\ fst (requireAuth (request staff 42 false ∅))
        = Ok (Sent 401 (Message "Unauthorized")))
  /\ (fst (login (anonymous (storeOf staff) (loginBody "nobody" "pw")))
        = Ok (Sent 401 (Message "Invalid credentials"))
      /\ fst (login (anonymous (storeOf staff) (loginBody "asha" "guess")))
           = Ok (Sent 401 (Message "Invalid credentials")))
  /\ (fst (login (anonymous (storeOf staff) (loginBody "ravi" "monsoon")))
        = Ok (Sent 401 (Message "Invalid credentials"))
      /\ fst (login (anonymous (storeOf staff) (loginBody "asha" "guess")))
           = Ok (Sent 401 (Message "Invalid credentials")))
  /\ fst (login (anonymous (storeOf staff) (loginWith "asha" (JNum 12345))))
       = Ok (Sent 500 (Message "Login failed"))
  /\ (fst (requireAdmin (anonymous (storeOf staff) ∅))
        = Ok (Sent 401 (Message "Unauthorized"))
      /\ fst (requireAdmin (request staff 99 false ∅))
           = Ok (Sent 403 (Message "Admin access required"))).
Proof.
  destruct (@authentication_failure_replies
              MemStorage.t MemorySessions.t _ _ _)
    as (Hgate & Hlogin & Hthrown & Hadmin).
  split; [| split; [| split; [| split]]].
  - apply (Hgate _ _ (Some ravi));
      [reflexivity | reflexivity | vm_compute; reflexivity | reflexivity].
  - apply (Hlogin _ _ None (Some asha));
      [reflexivity | reflexivity | vm_compute; reflexivity
       | vm_compute; reflexivity | apply denied_unknown |].
    apply denied_mismatch; reflexivity.
  - apply (Hlogin _ _ (Some ravi) (Some asha));
      [reflexivity | reflexivity | vm_compute; reflexivity
       | vm_compute; reflexivity | |].
    + apply denied_inactive. reflexivity.
    + apply denied_mismatch; reflexivity.
  - apply (Hthrown _ asha (TypeError "Illegal arguments"));
      [reflexivity | vm_compute; reflexivity | reflexivity | reflexivity].
  - apply Hadmin; [reflexivity | reflexivity | vm_compute; reflexivity].
Defined.

(** Authentication failures that can be told apart by their answers.  A
    login that sends the password as a number is answered 401 "Invalid
    credentials" for the unknown name "nobody" but 500 "Login failed" for
    the existing user "asha", whose password comparison throws on the
    number; and [requireAdmin] answers 401 to a request without a session
    user id but 403 to a session that names the missing user 99. *)
Lemma authentication_failures_distinguishable :
  fst (login (anonymous (storeOf staff) (loginWith "nobody" (JNum 12345))))
    = Ok (Sent 401 (Message "Invalid credentials"))
  /\ fst (login (anonymous (storeOf staff) (loginWith "asha" (JNum 12345))))
       = Ok (Sent 500 (Message "Login failed"))
  /\ fst (login (anonymous (storeOf staff) (loginWith "nobody" (JNum 12345))))
       <> fst (login (anonymous (storeOf staff) (loginWith "asha" (JNum 12345))))
  /\ getUser (JNum 99) (storeOf staff) = Ok None
  /\ fst (requireAdmin (anonymous (storeOf staff) ∅))
       = Ok (Sent 401 (Message "Unauthorized"))
  /\ fst (requireAdmin (request staff 99 false ∅))
       = Ok (Sent 403 (Message "Admin access required"))
  /\ fst (requireAdmin (anonymous (storeOf staff) ∅))
       <> fst (requireAdmin (request staff 99 false ∅)).
Proof.
  assert (H1 : fst (login (anonymous (storeOf staff) (loginWith "nobody" (JNum 12345))))
               = Ok (Sent 401 (Message "Invalid credentials")))
    by (vm_compute; reflexivity).
  assert (H2 : fst (login (anonymous (storeOf staff) (loginWith "asha" (JNum 12345))))
               = Ok (Sent 500 (Message "Login failed")))
    by (vm_compute; reflexivity).
  assert (H3 : fst (requireAdmin (anonymous (storeOf staff) ∅))
               = Ok (Sent 401 (Message "Unauthorized")))
    by (vm_compute; reflexivity).
  assert (H4 : fst (requireAdmin (request staff 99 false ∅))
               = Ok (Sent 403 (Message "Admin access required")))
    by (vm_compute; reflexivity).
  split; [exact H1 | split; [exact H2 | split]].
  - rewrite H1, H2. discriminate.
  - split; [vm_compute; reflexivity | split; [exact H3 | split; [exact H4 |]]].
    rewrite H3, H4. discriminate.
Qed.

(** The scenario of the first two accounts: "alice" signs up into the
    empty store, then "bob" signs up without the flag. *)
Lemma role_assignment_at_signup_witness :
  assignRole 0 JUndefined = JStr "admin"
  /\ assignRole 1 JUndefined = JStr "health_worker"
  /\ assignRole 1 (JBool true) = JStr "admin"
  /\ exists row1 row2,
       fst (signup (anonymous MemStorage.empty (signupBody "alice" "pw" "Alice")))
         = Ok (Sent 200 (UserEnvelope (withoutPassword row1)))
       /\ prop row1 "role" = JStr "admin"
       /\ fst (signup (following
                         (snd (signup (anonymous MemStorage.empty
                                         (signupBody "alice" "pw" "Alice"))))
                         (signupBody "bob" "pw" "Bob")))
            = Ok (Sent 200 (UserEnvelope (withoutPassword row2)))
       /\ prop row2 "role" = JStr "health_worker".
Proof.
  destruct role_assignment_at_signup as (Hadmin & Hworker & _ & Hscenario).
  split; [apply Hadmin; left; reflexivity |].
  split; [apply Hworker; split; [discriminate | reflexivity] |].
  split; [apply Hadmin; right; reflexivity |].
  destruct (Hscenario MemorySessions.t _
              (anonymous MemStorage.empty (signupBody "alice" "pw" "Alice"))
              (following
                 (snd (signup (anonymous MemStorage.empty
                                 (signupBody "alice" "pw" "Alice"))))
                 (signupBody "bob" "pw" "Bob"))
              {| userId := JUndefined |} {| userId := JUndefined |})
    as (row1 & row2 & H1 & Hr1 & H2 & Hr2 & _);
    try reflexivity.
  - vm_compute. discriminate.
  - exists row1, row2. repeat split; assumption.
Defined.

(** ** More on the account routes *)

Section AccountRouteFacts.

Context {S T : Type} `{!IStorage S} `{!SessionStore T} `{!Bcrypt}.

Implicit Types c : Ctx S T.

Ltac open_account :=
  unfold signup, login, logout, try_catch, bind, read, res_status_json,
    res_json, await_getUserByUsername, await_getAllUsers, await_createUser,
    await_bcrypt_compare, set_session_userId, session_save, session_destroy,
    logged, ret in *;
  cbn in *.

(** *** Every way a signup can go *)

Lemma signup_run_list_failed c e :
  signup_complete (body c) = true ->
  getUserByUsername (prop (body c) "username") (db c) = Ok None ->
  getAllUsers (db c) = Err e ->
  fst (signup c) = Ok (Sent 500 (Message "Signup failed"))
  /\ db (snd (signup c)) = db c
  /\ session (snd (signup c)) = session c
  /\ sessions (snd (signup c)) = sessions c.
Proof.
  intros Hc Hget Hall. apply signup_complete_split in Hc.
  open_account. rewrite Hc. cbn. rewrite Hget. cbn. rewrite Hall. cbn.
  repeat split.
Qed.

Lemma signup_run_create_failed c l e :
  signup_complete (body c) = true ->
  getUserByUsername (prop (body c) "username") (db c) = Ok None ->
  getAllUsers (db c) = Ok l ->
  createUser (signupFields (body c)
                (assignRole (length l) (prop (body c) "isFirstUser")))
             (db c) = Err e ->
  fst (signup c) = Ok (Sent 500 (Message "Signup failed"))
  /\ db (snd (signup c)) = db c
  /\ session (snd (signup c)) = session c
  /\ sessions (snd (signup c)) = sessions c.
Proof.
  intros Hc Hget Hall Hcreate. apply signup_complete_split in Hc.
  unfold signupFields in Hcreate.
  open_account. rewrite Hc. cbn. rewrite Hget. cbn. rewrite Hall. cbn.
  rewrite Hcreate. cbn. repeat split.
Qed.

Lemma signup_run_without_session c l row d' :
  signup_complete (body c) = true ->
  getUserByUsername (prop (body c) "username") (db c) = Ok None ->
  getAllUsers (db c) = Ok l ->
  createUser (signupFields (body c)
                (assignRole (length l) (prop (body c) "isFirstUser")))
             (db c) = Ok (row, d') ->
  session c = None ->
  fst (signup c) = Ok (Sent 500 (Message "Signup failed"))
  /\ db (snd (signup c)) = d'
  /\ session (snd (signup c)) = None
  /\ sessions (snd (signup c)) = sessions c.
Proof.
  intros Hc Hget Hall Hcreate Hs. apply signup_complete_split in Hc.
  unfold signupFields in Hcreate.
  open_account. rewrite Hc. cbn. rewrite Hget. cbn. rewrite Hall. cbn.
  rewrite Hcreate. cbn. rewrite Hs. cbn. repeat split; assumption.
Qed.

Lemma signup_runs c : SignupRun c.
Proof.
  destruct (signup_complete (body c)) eqn:Hc;
    [| apply signup_incomplete; [exact Hc | now apply signup_run_incomplete]].
  destruct (getUserByUsername (prop (body c) "username") (db c))
    as [[u|]|e] eqn:Hget.
  - apply (signup_taken c u Hc Hget). apply (signup_run_taken c u Hc Hget).
  - destruct (getAllUsers (db c)) as [l|e] eqn:Hall.
    + destruct (createUser (signupFields (body c)
                  (assignRole (length l) (prop (body c) "isFirstUser"))) (db c))
        as [[row d']|e] eqn:Hcreate.
      * destruct (session c) as [s|] eqn:Hs.
        -- destruct (store_set (sessionID c) {| userId := prop row "id" |}
                       (sessions c)) as [t' report] eqn:Hset.
           destruct (signup_run_created c l row d' s t' report
                       Hc Hget Hall Hcreate Hs Hset) as (H1 & H2 & H3 & H4).
           apply (signup_created c l row d' s); try assumption.
           now rewrite H4, Hset.
        -- destruct (signup_run_without_session c l row d' Hc Hget Hall Hcreate Hs)
             as (H1 & H2 & _).
           now apply (signup_created_unanswered c l row d').
      * destruct (signup_run_create_failed c l e Hc Hget Hall Hcreate)
          as (H1 & H2 & H3 & H4).
        now apply signup_failed.
    + destruct (signup_run_list_failed c e Hc Hget Hall) as (H1 & H2 & H3 & H4).
      now apply signup_failed.
  - apply signup_failed; try assumption;
      now rewrite (signup_run_lookup_failed c e Hc Hget).
Qed.

(** *** Every way a login can go *)

Lemma login_run_incomplete c :
  login_complete (body c) = false ->
  login c = (Ok (Sent 400 (Message "Username and password are required")), c).
Proof.
  intros Hc. unfold login_complete in Hc. open_account.
  destruct (truthy (prop (body c) "username")),
    (truthy (prop (body c) "password")); cbn in *; congruence.
Qed.

Lemma login_run_failed c :
  login_complete (body c) = true ->
  (exists e, getUserByUsername (prop (body c) "username") (db c) = Err e)
  \/ (exists u, getUserByUsername (prop (body c) "username") (db c) = Ok (Some u)
                /\ truthy (prop u "isActive") = true
                /\ ((exists e, bcrypt_compare (prop (body c) "password")
                                              (prop u "password") = Err e)
                    \/ (bcrypt_compare (prop (body c) "password")
                                       (prop u "password") = Ok true
                        /\ session c = None))) ->
  login c = (Ok (Sent 500 (Message "Login failed")),
             logged (CallGetUserByUsername (prop (body c) "username")) c).
Proof.
  intros Hc Hcause. apply login_complete_split in Hc.
  open_account. rewrite Hc. cbn.
  destruct Hcause as [[e Hget] | (u & Hget & Hactive & [[e Hcmp] | [Hcmp Hs]])];
    rewrite Hget; cbn; try reflexivity;
    rewrite Hactive; cbn; rewrite Hcmp; cbn; try reflexivity.
  now rewrite Hs.
Qed.

Lemma login_runs c : LoginRun c.
Proof.
  destruct (login_complete (body c)) eqn:Hc;
    [| apply login_incomplete; [exact Hc | now apply login_run_incomplete]].
  destruct (getUserByUsername (prop (body c) "username") (db c))
    as [[u|]|e] eqn:Hget.
  - destruct (truthy (prop u "isActive")) eqn:Hactive.
    + destruct (bcrypt_compare (prop (body c) "password") (prop u "password"))
        as [[|]|e] eqn:Hcmp.
      * destruct (session c) as [s|] eqn:Hs.
        -- apply (login_granted c u s Hc Hget Hactive Hcmp Hs).
           destruct (store_set (sessionID c) {| userId := prop u "id" |}
                       (sessions c)) as [t' report] eqn:Hset.
           apply (login_run_granted c u s t' report Hc Hget Hactive Hcmp Hs Hset).
        -- apply (login_failed c Hc). apply (login_run_failed c Hc).
           right. exists u. eauto 8.
      * apply (login_turned_away c (Some u) Hc Hget);
          [now apply denied_mismatch |].
        apply (login_run_denied c (Some u) Hc Hget). now apply denied_mismatch.
      * apply (login_failed c Hc). apply (login_run_failed c Hc).
        right. exists u. eauto 8.
    + apply (login_turned_away c (Some u) Hc Hget);
        [now apply denied_inactive |].
      apply (login_run_denied c (Some u) Hc Hget). now apply denied_inactive.
  - apply (login_turned_away c None Hc Hget); [apply denied_unknown |].
    apply (login_run_denied c None Hc Hget). apply denied_unknown.
  - apply (login_failed c Hc). apply (login_run_failed c Hc). left. eauto.
Qed.

(** *** What the account routes guarantee *)

(** X1: signup and login always answer: the [try]/[catch] around each body
    keeps every error inside, and neither calls [next].  Signup answers
    200, 400 or 500; login answers 200, 400, 401 or 500. *)
Theorem signup_login_always_answer c :
  (exists s p, fst (signup c) = Ok (Sent s p) /\ (s = 200 \/ s = 400 \/ s = 500))
  /\ (exists s p, fst (login c) = Ok (Sent s p)
                  /\ (s = 200 \/ s = 400 \/ s = 401 \/ s = 500)).
Proof.
  split.
  - destruct (signup_runs c) as [? Hr | ? ? ? Hr | ? Hr | ? ? ? ? ? ? ? ? Hr
                                 | ? ? ? ? ? ? ? ? ? Hr];
      rewrite Hr; cbn; eauto 10.
  - destruct (login_runs c) as [? Hr | ? ? ? ? Hr | ? Hr | ? ? ? ? ? ? ? Hr];
      rewrite Hr; cbn; eauto 10.
Qed.

(** X2: signup answers 200 exactly when the request is complete, the username
    is free, both reads succeed, [createUser] succeeds and the request has
    a session.  Then the body is the created row without its password, the
    store is the one [createUser] returned and the session names the new
    row's id.  What the session store reports on the save plays no part. *)
Theorem signup_succeeds_iff c p :
  (fst (signup c) = Ok (Sent 200 p) ->
   exists l row d' s,
     signup_complete (body c) = true
     /\ getUserByUsername (prop (body c) "username") (db c) = Ok None
     /\ getAllUsers (db c) = Ok l
     /\ createUser (signupFields (body c)
                      (assignRole (length l) (prop (body c) "isFirstUser")))
                   (db c) = Ok (row, d')
     /\ session c = Some s
     /\ p = UserEnvelope (withoutPassword row)
     /\ db (snd (signup c)) = d'
     /\ session (snd (signup c)) = Some {| userId := prop row "id" |}
     /\ sessions (snd (signup c))
          = fst (store_set (sessionID c) {| userId := prop row "id" |} (sessions c)))
  /\ (forall l row d' s,
        signup_complete (body c) = true ->
        getUserByUsername (prop (body c) "username") (db c) = Ok None ->
        getAllUsers (db c) = Ok l ->
        createUser (signupFields (body c)
                      (assignRole (length l) (prop (body c) "isFirstUser")))
                   (db c) = Ok (row, d') ->
        session c = Some s ->
        fst (signup c) = Ok (Sent 200 (UserEnvelope (withoutPassword row)))).
Proof.
  split.
  - intros Hok.
    destruct (signup_runs c) as [? Hr | ? ? ? Hr | ? Hr | ? ? ? ? ? ? ? ? Hr
                                 | l row d' s Hc Hget Hall Hcreate Hs Hr Hd Hss Hst];
      rewrite Hr in Hok; try discriminate.
    injection Hok as <-. exists l, row, d', s. repeat split; assumption.
  - intros l row d' s Hc Hget Hall Hcreate Hs.
    destruct (store_set (sessionID c) {| userId := prop row "id" |} (sessions c))
      as [t' report] eqn:Hset.
    apply (signup_run_created c l row d' s t' report Hc Hget Hall Hcreate Hs Hset).
Qed.

(** X3: A signup answered 400 has changed nothing: user store, session and
    session store are as they were, [createUser] was not called, and the
    message is one of the two rejections. *)
Theorem signup_rejection_is_clean c p :
  fst (signup c) = Ok (Sent 400 p) ->
  db (snd (signup c)) = db c
  /\ session (snd (signup c)) = session c
  /\ sessions (snd (signup c)) = sessions c
  /\ (calls (snd (signup c)) = calls c
      \/ calls (snd (signup c))
         = (calls c ++ [CallGetUserByUsername (prop (body c) "username")])%list)
  /\ (p = Message "Username, password, and name are required"
      \/ p = Message "Username already exists").
Proof.
  intros Hok.
  destruct (signup_runs c) as [? Hr | ? ? ? Hr | ? Hr | ? ? ? ? ? ? ? ? Hr
                               | ? ? ? ? ? ? ? ? ? Hr];
    rewrite Hr in Hok; try discriminate; injection Hok as <-;
    rewrite Hr; cbn; repeat split; auto.
Qed.

(** X4: signup changes the user store only through a successful [createUser],
    and it does not undo one: when the row has been created and the request
    then turns out to have no session, the answer is 500 "Signup failed"
    while the store keeps the new row. *)
Theorem signup_store_effect c :
  (db (snd (signup c)) = db c
   \/ exists l row,
        getUserByUsername (prop (body c) "username") (db c) = Ok None
        /\ getAllUsers (db c) = Ok l
        /\ createUser (signupFields (body c)
                         (assignRole (length l) (prop (body c) "isFirstUser")))
                      (db c) = Ok (row, db (snd (signup c))))
  /\ (forall l row d',
        signup_complete (body c) = true ->
        getUserByUsername (prop (body c) "username") (db c) = Ok None ->
        getAllUsers (db c) = Ok l ->
        createUser (signupFields (body c)
                      (assignRole (length l) (prop (body c) "isFirstUser")))
                   (db c) = Ok (row, d') ->
        session c = None ->
        fst (signup c) = Ok (Sent 500 (Message "Signup failed"))
        /\ db (snd (signup c)) = d').
Proof.
  split.
  - destruct (signup_runs c) as [? Hr | ? ? ? Hr | ? ? Hd | l row d' ? Hget Hall Hcreate ? ? Hd
                                 | l row d' s ? Hget Hall Hcreate ? ? Hd].
    + left. now rewrite Hr.
    + left. now rewrite Hr.
    + left. exact Hd.
    + right. exists l, row. now rewrite Hd.
    + right. exists l, row. now rewrite Hd.
  - intros l row d' Hc Hget Hall Hcreate Hs.
    destruct (signup_run_without_session c l row d' Hc Hget Hall Hcreate Hs)
      as (H1 & H2 & _).
    now split.
Qed.

(** X5: login answers 200 exactly when the request is complete, the user
    exists and is active, [bcrypt.compare] says the password matches and
    the request has a session; the body is then the row without its
    password and the session names the row's id. *)
Theorem login_succeeds_iff c p :
  (fst (login c) = Ok (Sent 200 p) ->
   exists u s,
     login_complete (body c) = true
     /\ getUserByUsername (prop (body c) "username") (db c) = Ok (Some u)
     /\ truthy (prop u "isActive") = true
     /\ bcrypt_compare (prop (body c) "password") (prop u "password") = Ok true
     /\ session c = Some s
     /\ p = UserEnvelope (withoutPassword u)
     /\ session (snd (login c)) = Some {| userId := prop u "id" |})
  /\ (forall u s,
        login_complete (body c) = true ->
        getUserByUsername (prop (body c) "username") (db c) = Ok (Some u) ->
        truthy (prop u "isActive") = true ->
        bcrypt_compare (prop (body c) "password") (prop u "password") = Ok true ->
        session c = Some s ->
        fst (login c) = Ok (Sent 200 (UserEnvelope (withoutPassword u)))).
Proof.
  split.
  - intros Hok.
    destruct (login_runs c) as [? Hr | ? ? ? ? Hr | ? Hr
                                | u s Hc Hget Hactive Hcmp Hs Hr];
      rewrite Hr in Hok; try discriminate.
    injection Hok as <-. exists u, s. rewrite Hr. repeat split; assumption.
  - intros u s Hc Hget Hactive Hcmp Hs.
    destruct (store_set (sessionID c) {| userId := prop u "id" |} (sessions c))
      as [t' report] eqn:Hset.
    now rewrite (login_run_granted c u s t' report Hc Hget Hactive Hcmp Hs Hset).
Qed.

(** X6: login never writes to the user store and asks it at most once, for
    the username; unless it answers 200 it also leaves the session and the
    session store as they were. *)
Theorem login_never_writes c :
  db (snd (login c)) = db c
  /\ (calls (snd (login c)) = calls c
      \/ calls (snd (login c))
         = (calls c ++ [CallGetUserByUsername (prop (body c) "username")])%list)
  /\ ((forall p, fst (login c) <> Ok (Sent 200 p)) ->
      session (snd (login c)) = session c
      /\ sessions (snd (login c)) = sessions c).
Proof.
  destruct (login_runs c) as [? Hr | ? ? ? ? Hr | ? Hr | ? ? ? ? ? ? ? Hr];
    rewrite Hr; cbn; (split; [reflexivity |]); (split; [auto |]);
    intros Hno; try (split; reflexivity).
  exfalso. eapply Hno. reflexivity.
Qed.

(** X7: logout takes the session off the request and has the store destroy
    it; it answers 500 when the store reports an error and 200 otherwise,
    and the user store is not touched.  Without a session on the request
    the handler throws. *)
Theorem logout_outcomes c :
  (session c = None -> exists e, logout c = (Err e, c))
  /\ (forall s t' report,
        session c = Some s ->
        store_destroy (sessionID c) (sessions c) = (t', report) ->
        fst (logout c)
          = match report with
            | Some _ => Ok (Sent 500 (Message "Logout failed"))
            | None => Ok (Sent 200 (Message "Logged out successfully"))
            end
        /\ session (snd (logout c)) = None
        /\ sessions (snd (logout c)) = t'
        /\ db (snd (logout c)) = db c).
Proof.
  split.
  - intros Hs. open_account. rewrite Hs. eauto.
  - intros s t' report Hs Hd. open_account. rewrite Hs, Hd. cbn.
    destruct report; repeat split.
Qed.

End AccountRouteFacts.

(** ** The routes behind the gates *)

Section RouteFacts.

Context {S T : Type} `{!IStorage S} `{!SessionStore T}
        `{!Builtins} `{!IRecords S} `{!Schemas} `{!Bcrypt}.

Implicit Types c : Ctx S T.

Ltac open_routes :=
  unfold handler_of, authUser, authSetup, listUsers, createUserRoute,
    updateUserRoute, listPatients, searchPatientsRoute, getPatientRoute,
    getPatientByQRCodeRoute, createPatientRoute, updatePatientRoute,
    listVaccines, listPatientVaccinations, createVaccinationRoute,
    updateVaccinationRoute, vaccinationStats, todayAppointments,
    createAppointmentRoute, updateAppointmentRoute, dashboardStats,
    try_catch, bind, answer, session_userId_strict, await_read, await_write,
    parsed, await_getUser, await_getAllUsers, await_createUser, read, logged,
    ret in *;
  cbn in *.

Lemma chain_run (gate : M S T Reply) (handler : M S T Answer) c :
  chain gate handler c =
    match gate c with
    | (Ok (Sent s p), c') => (Ok (Answered s (Reported p)), c')
    | (Ok NextCalled, c') => handler c'
    | (Err e, c') => (Err e, c')
    end.
Proof.
  unfold chain, bind, answer, ret.
  destruct (gate c) as [[[s p|]|e] c']; reflexivity.
Qed.

(** No handler lets an error out, and none answers 403; 401 is answered by
    the handler of [/api/auth/user] alone. *)
Lemma handler_always_answers (r : Route) c :
  exists s b,
    fst (handler_of r c) = Ok (Answered s b)
    /\ s <> 403
    /\ (s = 401 -> r = GetAuthUser).
Proof.
  destruct r; open_routes;
    repeat (case_match; cbn); simplify_eq;
    do 2 eexists; (split; [reflexivity |]); split; congruence.
Qed.

Lemma requireAuth_runs c : AuthRun c.
Proof.
  destruct (truthy (session_userId c)) eqn:Hid;
    [| apply auth_anonymous; [exact Hid | now apply requireAuth_run_anonymous]].
  destruct (getUser (session_userId c) (db c)) as [[u|]|e] eqn:Hget.
  - destruct (truthy (prop u "isActive")) eqn:Hactive.
    + apply (auth_accepted c u Hid Hget Hactive).
      apply (requireAuth_run_accepted c u Hid Hget Hactive).
    + apply (auth_rejected c (Some u) Hid Hget Hactive).
      destruct (store_destroy (sessionID c) (sessions c)) as [t' report] eqn:Hd.
      apply (requireAuth_run_rejected c (Some u) t' report Hid Hget Hactive Hd).
  - apply (auth_rejected c None Hid Hget I).
    destruct (store_destroy (sessionID c) (sessions c)) as [t' report] eqn:Hd.
    apply (requireAuth_run_rejected c None t' report Hid Hget I Hd).
  - apply (auth_failed c e Hid Hget). now apply requireAuth_run_failed.
Qed.

Lemma requireAdmin_runs c : AdminRun c.
Proof.
  destruct (truthy (session_userId c)) eqn:Hid;
    [| apply admin_anonymous; [exact Hid | now apply requireAdmin_run_anonymous]].
  destruct (getUser (session_userId c) (db c)) as [found|e] eqn:Hget;
    [| apply (admin_failed c e Hid Hget); now apply requireAdmin_run_failed].
  pose proof (requireAdmin_run_found c found Hid Hget) as Hrun.
  destruct found as [u|].
  - unfold strict_eq in Hrun.
    destruct (decide (prop u "role" = JStr "admin")) as [Hrole|Hrole].
    + rewrite bool_decide_eq_true_2 in Hrun by exact Hrole.
      now apply (admin_accepted c u).
    + rewrite bool_decide_eq_false_2 in Hrun by exact Hrole.
      apply (admin_forbidden c (Some u) Hid Hget); [| exact Hrun].
      now intros ? [= <-].
  - apply (admin_forbidden c None Hid Hget); [discriminate | exact Hrun].
Qed.

(** *** What holds of every route *)

(** X8: A request whose session carries no user id is answered 401
    "Unauthorized" by every route registered behind a gate, and its handler
    does not run: the context comes back as it was. *)
Theorem serve_anonymous (r : Route) c :
  guard_of r <> Unguarded ->
  truthy (session_userId c) = false ->
  serve r c = (Ok (Answered 401 (Reported (Message "Unauthorized"))), c).
Proof.
  intros Hg Hno. unfold serve.
  destruct (guard_of r); [congruence | |]; rewrite chain_run.
  - now rewrite (requireAuth_run_anonymous c Hno).
  - now rewrite (requireAdmin_run_anonymous c Hno).
Qed.

(** X9: an error leaves a route only through its gate: the handlers catch
    everything, so an escaping error is the error of the gate's user
    lookup, on a route that has a gate. *)
Theorem serve_error_only_from_gate (r : Route) c e :
  fst (serve r c) = Err e ->
  guard_of r <> Unguarded
  /\ truthy (session_userId c) = true
  /\ getUser (session_userId c) (db c) = Err e.
Proof.
  unfold serve. intros Herr.
  destruct (guard_of r) eqn:Hg.
  - destruct (handler_always_answers r c) as (s & b & Hok & _). congruence.
  - rewrite chain_run in Herr.
    destruct (requireAuth_runs c) as [? Hr | ? ? ? ? Hr | u ? ? ? Hr | e' ? ? Hr];
      rewrite Hr in Herr; cbn in Herr; try discriminate.
    + destruct (handler_always_answers r
                  (attached u (logged (CallGetUser (session_userId c)) c)))
        as (s & b & Hok & _). congruence.
    + injection Herr as ->. repeat split; auto; discriminate.
  - rewrite chain_run in Herr.
    destruct (requireAdmin_runs c) as [? Hr | ? ? ? ? Hr | u ? ? ? Hr | e' ? ? Hr];
      rewrite Hr in Herr; cbn in Herr; try discriminate.
    + destruct (handler_always_answers r
                  (logged (CallGetUser (session_userId c)) c))
        as (s & b & Hok & _). congruence.
    + injection Herr as ->. repeat split; auto; discriminate.
Qed.

(** X10: access control: behind [requireAuth], an answer other than 401 means
    the session's user id resolved to a row whose active flag is true;
    behind [requireAdmin], an answer other than 401 and 403 means it
    resolved to a row whose role is ['admin']. *)
Theorem serve_access_control (r : Route) c a :
  fst (serve r c) = Ok a ->
  (guard_of r = Authenticated ->
   status_of a <> 401 ->
   exists u, getUser (session_userId c) (db c) = Ok (Some u)
             /\ truthy (prop u "isActive") = true)
  /\ (guard_of r = AdminOnly ->
      status_of a <> 401 -> status_of a <> 403 ->
      exists u, getUser (session_userId c) (db c) = Ok (Some u)
                /\ prop u "role" = JStr "admin").
Proof.
  unfold serve. intros Hok. split; intros Hg; rewrite Hg, chain_run in Hok.
  - intros Hs.
    destruct (requireAuth_runs c) as [? Hr | ? ? ? ? Hr | u ? ? ? Hr | e' ? ? Hr];
      rewrite Hr in Hok; cbn in Hok; try discriminate;
      try (injection Hok as <-; now cbn in Hs).
    eauto.
  - intros Hs1 Hs2.
    destruct (requireAdmin_runs c) as [? Hr | ? ? ? ? Hr | u ? ? ? Hr | e' ? ? Hr];
      rewrite Hr in Hok; cbn in Hok; try discriminate;
      try (injection Hok as <-; now cbn in Hs1, Hs2).
    eauto.
Qed.

Lemma unguarded_is_setup (r : Route) : guard_of r = Unguarded -> r = GetAuthSetup.
Proof. destruct r; cbn; congruence. Qed.

Lemma authSetup_reads_only c : db (snd (authSetup c)) = db c.
Proof. open_routes. now destruct (getAllUsers (db c)). Qed.

(** X11: the store changes only behind a gate that let the request
    through: if a route leaves another store than it found, the session's
    user id resolved to an active user (behind [requireAuth]) or to an
    admin (behind [requireAdmin]); the open setup route never writes. *)
Theorem serve_write_needs_access (r : Route) c :
  db (snd (serve r c)) <> db c ->
  exists u,
    getUser (session_userId c) (db c) = Ok (Some u)
    /\ match guard_of r with
       | Unguarded => False
       | Authenticated => truthy (prop u "isActive") = true
       | AdminOnly => prop u "role" = JStr "admin"
       end.
Proof.
  unfold serve. intros Hdb.
  destruct (guard_of r) eqn:Hg.
  - apply unguarded_is_setup in Hg. subst r.
    exfalso. apply Hdb. apply authSetup_reads_only.
  - rewrite chain_run in Hdb.
    destruct (requireAuth_runs c) as [? Hr | ? ? ? ? Hr | u ? ? ? Hr | e' ? ? Hr];
      rewrite Hr in Hdb; cbn in Hdb; try congruence.
    eauto.
  - rewrite chain_run in Hdb.
    destruct (requireAdmin_runs c) as [? Hr | ? ? ? ? Hr | u ? ? ? Hr | e' ? ? Hr];
      rewrite Hr in Hdb; cbn in Hdb; try congruence.
    eauto.
Qed.

Lemma withoutPassword_withholds o : withoutPassword o !! "password" = None.
Proof. apply lookup_delete_eq. Qed.

Lemma withoutPassword_rows l :
  Forall (fun o : JsObj => o !! "password" = None) (map withoutPassword l).
Proof.
  induction l as [|o l IH]; cbn; constructor;
    [apply withoutPassword_withholds | exact IH].
Qed.

Lemma user_handler_withholds_password (r : Route) c a :
  user_route r = true ->
  fst (handler_of r c) = Ok a ->
  Forall (fun o : JsObj => o !! "password" = None) (rows_of a).
Proof.
  destruct r; cbn; try discriminate; intros _; open_routes;
    repeat (case_match; cbn); intros; simplify_eq; cbn;
    try apply withoutPassword_rows;
    repeat constructor; apply withoutPassword_withholds.
Qed.

(** X12: no answer carries a password: every row in an answer of the user
    routes ([/api/auth/user], [/api/users], [/api/users/:id]), gate
    included, and the user in every answer of signup and login, lacks the
    [password] property. *)
Theorem answers_withhold_password c :
  (forall (r : Route) a,
     user_route r = true ->
     fst (serve r c) = Ok a ->
     Forall (fun o : JsObj => o !! "password" = None) (rows_of a))
  /\ (forall s u, fst (signup c) = Ok (Sent s (UserEnvelope u)) ->
                  u !! "password" = None)
  /\ (forall s u, fst (login c) = Ok (Sent s (UserEnvelope u)) ->
                  u !! "password" = None).
Proof.
  split; [| split].
  - intros r a Hr Hok. unfold serve in Hok.
    destruct (guard_of r) eqn:Hg.
    + now apply (user_handler_withholds_password r c a).
    + rewrite chain_run in Hok.
      destruct (requireAuth_runs c) as [? Hq | ? ? ? ? Hq | u ? ? ? Hq | e' ? ? Hq];
        rewrite Hq in Hok; cbn in Hok; try discriminate;
        try (injection Hok as <-; constructor).
      eapply user_handler_withholds_password; eassumption.
    + rewrite chain_run in Hok.
      destruct (requireAdmin_runs c) as [? Hq | ? ? ? ? Hq | u ? ? ? Hq | e' ? ? Hq];
        rewrite Hq in Hok; cbn in Hok; try discriminate;
        try (injection Hok as <-; constructor).
      eapply user_handler_withholds_password; eassumption.
  - intros s u Hok.
    destruct (signup_runs c) as [? Hr | ? ? ? Hr | ? Hr | ? ? ? ? ? ? ? ? Hr
                                 | ? ? ? ? ? ? ? ? ? Hr];
      rewrite Hr in Hok; try discriminate.
    injection Hok as _ <-. apply withoutPassword_withholds.
  - intros s u Hok.
    destruct (login_runs c) as [? Hr | ? ? ? ? Hr | ? Hr | ? ? ? ? ? ? ? Hr];
      rewrite Hr in Hok; try discriminate.
    injection Hok as _ <-. apply withoutPassword_withholds.
Qed.

(** *** Single routes *)

(** X13: whenever [/api/auth/user] answers 200 behind its gate, the store
    was asked twice for the session's user id, by the gate and then by
    the handler, the row the gate put on the request is an active one,
    and the body is a user row without [password].  The handler by itself
    answers from its own lookup alone: the row without its password
    whenever there is one, active or not, 401 "User not found" when there
    is none, and 500 "Failed to get user" when the lookup throws. *)
Theorem authUser_behind_gate c :
  (forall a,
     fst (serve GetAuthUser c) = Ok a ->
     status_of a = 200 ->
     exists row u,
       a = Answered 200 (Object row)
       /\ row !! "password" = None
       /\ user (snd (serve GetAuthUser c)) = Some u
       /\ truthy (prop u "isActive") = true
       /\ calls (snd (serve GetAuthUser c))
          = (calls c ++ [CallGetUser (session_userId c);
                         CallGetUser (session_userId c)])%list)
  /\ (forall s,
        session c = Some s ->
        (forall u,
           getUser (userId s) (db c) = Ok (Some u) ->
           fst (authUser c) = Ok (Answered 200 (Object (withoutPassword u))))
        /\ (getUser (userId s) (db c) = Ok None ->
            fst (authUser c) = Ok (Answered 401 (Reported (Message "User not found"))))
        /\ (forall e,
              getUser (userId s) (db c) = Err e ->
              fst (authUser c)
                = Ok (Answered 500 (Reported (Message "Failed to get user"))))).
Proof.
  split.
  - unfold serve. cbn [guard_of handler_of]. rewrite chain_run. intros a Hok Hstatus.
    destruct (requireAuth_runs c) as [? Hr | ? ? ? ? Hr | u Hid Hget Hactive Hr
                                      | e' ? ? Hr];
      rewrite Hr in Hok |- *; cbn in Hok; try discriminate;
      try (injection Hok as <-; discriminate Hstatus).
    exists (withoutPassword u), u.
    destruct (truthy_userId_session c Hid) as [s Hs].
    assert (Hu : userId s = session_userId c)
      by (unfold session_userId; now rewrite Hs).
    revert Hok. open_routes. rewrite Hs. cbn. rewrite Hu, Hget. cbn.
    intros [= <-]. repeat split; try assumption.
    + apply lookup_delete_eq.
    + now rewrite <- app_assoc.
  - intros s Hs. split; [| split].
    + intros u Hget. open_routes. rewrite Hs. cbn. now rewrite Hget.
    + intros Hget. open_routes. rewrite Hs. cbn. now rewrite Hget.
    + intros e Hget. open_routes. rewrite Hs. cbn. now rewrite Hget.
Qed.

Lemma respects_ret {A} (a : A) : respects (S:=S) (T:=T) (ret a).
Proof. intros c1 c2 Hc. now split. Qed.

Lemma respects_bind {A B} (m : M S T A) (k : A -> M S T B) :
  respects m -> (forall a, respects (k a)) -> respects (bind m k).
Proof.
  intros Hm Hk c1 c2 Hc. unfold bind.
  destruct (Hm c1 c2 Hc) as [Hr Hc']. revert Hr Hc'.
  destruct (m c1) as [[a1|e1] c1'], (m c2) as [[a2|e2] c2']; cbn;
    intros Hr Hc'; simplify_eq; [apply Hk, Hc' | now split].
Qed.

Lemma respects_try_catch {A} (m : M S T A) (h : Error -> M S T A) :
  respects m -> (forall e, respects (h e)) -> respects (try_catch m h).
Proof.
  intros Hm Hh c1 c2 Hc. unfold try_catch.
  destruct (Hm c1 c2 Hc) as [Hr Hc']. revert Hr Hc'.
  destruct (m c1) as [[a1|e1] c1'], (m c2) as [[a2|e2] c2']; cbn;
    intros Hr Hc'; simplify_eq; [now split | apply Hh, Hc'].
Qed.

Lemma respects_read_body : respects (S:=S) (T:=T) (read body).
Proof.
  intros c1 c2 (Hd & Hs & Hb). unfold read. cbn. rewrite Hb. now repeat split.
Qed.

Lemma respects_session_userId_strict : respects (S:=S) (T:=T) session_userId_strict.
Proof.
  intros c1 c2 (Hd & Hs & Hb). unfold agree, session_userId_strict.
  rewrite Hs. destruct (session c2) eqn:Hs2; cbn; repeat split; congruence.
Qed.

Lemma respects_await_read {A} (op : S -> Result A) : respects (T:=T) (await_read op).
Proof.
  intros c1 c2 (Hd & Hs & Hb). unfold await_read. cbn. rewrite Hd.
  now repeat split.
Qed.

Lemma respects_await_write (op : S -> Result (JsObj * S)) :
  respects (T:=T) (await_write op).
Proof.
  intros c1 c2 (Hd & Hs & Hb). unfold await_write. rewrite Hd.
  destruct (op (db c2)) as [[row d']|e]; cbn; now repeat split.
Qed.

Lemma respects_parsed parse o : respects (S:=S) (T:=T) (parsed parse o).
Proof. intros c1 c2 Hc. now split. Qed.

Lemma respects_await_getUser id : respects (T:=T) (await_getUser id).
Proof.
  intros c1 c2 (Hd & Hs & Hb). unfold await_getUser. cbn. rewrite Hd.
  now repeat split.
Qed.

Lemma respects_await_getAllUsers : respects (T:=T) await_getAllUsers.
Proof.
  intros c1 c2 (Hd & Hs & Hb). unfold await_getAllUsers. cbn. rewrite Hd.
  now repeat split.
Qed.

Lemma respects_await_createUser f : respects (T:=T) (await_createUser f).
Proof.
  intros c1 c2 (Hd & Hs & Hb). unfold await_createUser. cbn. rewrite Hd.
  destruct (createUser f (db c2)) as [[row d']|e]; cbn; now repeat split.
Qed.

Ltac respects_step :=
  first
    [ apply respects_try_catch
    | apply respects_bind
    | apply respects_ret
    | apply respects_read_body
    | apply respects_session_userId_strict
    | apply respects_await_read
    | apply respects_await_write
    | apply respects_parsed
    | apply respects_await_getUser
    | apply respects_await_getAllUsers
    | apply respects_await_createUser
    | match goal with
      | |- forall _, respects _ => intro
      | |- respects (match ?x with _ => _ end) => destruct x
      end ].

(** What a handler answers and what store it leaves depend on the store,
    the request's session and the body alone. *)
Lemma handler_respects (r : Route) : respects (S:=S) (T:=T) (handler_of r).
Proof.
  destruct r; cbn [handler_of];
    unfold authUser, authSetup, listUsers, createUserRoute, updateUserRoute,
      listPatients, searchPatientsRoute, getPatientRoute,
      getPatientByQRCodeRoute, createPatientRoute, updatePatientRoute,
      listVaccines, listPatientVaccinations, createVaccinationRoute,
      updateVaccinationRoute, vaccinationStats, todayAppointments,
      createAppointmentRoute, updateAppointmentRoute, dashboardStats, answer;
    repeat respects_step.
Qed.

Lemma handler_ignores_gate_marks (r : Route) (u : JsObj) (k : StorageCall) c :
  fst (handler_of r (attached u (logged k c))) = fst (handler_of r c)
  /\ db (snd (handler_of r (attached u (logged k c)))) = db (snd (handler_of r c)).
Proof.
  destruct (handler_respects r (attached u (logged k c)) c) as [Hr (Hd & _)];
    [now repeat split | now split].
Qed.

(** X14: the two registrations compared.  [server/routes.ts] registers
    every authenticated route; under it every request whose session
    carries a user id reaches the handler of such a route, with no lookup
    by the gate; and whenever the [requireAuth] that asks the store lets
    a request through, both registrations give the same answer and leave
    the same user store. *)
Theorem registrations_compared (r : Route) c :
  guard_of r = Authenticated ->
  exists m,
    serve_sessionOnly r = Some m
    /\ (truthy (session_userId c) = true -> m c = handler_of r c)
    /\ (fst (requireAuth c) = Ok NextCalled ->
        fst (m c) = fst (serve r c)
        /\ db (snd (m c)) = db (snd (serve r c))).
Proof.
  intros Hg. exists (chain requireAuth_sessionOnly (handler_of r)).
  unfold serve, serve_sessionOnly. rewrite Hg, !chain_run.
  rewrite requireAuth_sessionOnly_run.
  split; [reflexivity | split].
  - now intros ->.
  - intros Hpass.
    destruct (requireAuth_runs c) as [? Hr | ? ? ? ? Hr | u Hid ? ? Hr | e' ? ? Hr];
      rewrite Hr in Hpass |- *; cbn in Hpass; try discriminate.
    rewrite Hid.
    destruct (handler_ignores_gate_marks r u (CallGetUser (session_userId c)) c)
      as [-> ->].
    split; reflexivity.
Qed.

(** X15: the setup probe and the role rule of signup agree: on one and the same
    store, [/api/auth/setup] reports [needsSetup: true] exactly when a
    complete signup under a free username and without the first-user flag
    hands [createUser] the role ['admin']. *)
Theorem setup_announces_first_admin (c c' : Ctx S T) l :
  getAllUsers (db c) = Ok l ->
  db c' = db c ->
  signup_complete (body c') = true ->
  getUserByUsername (prop (body c') "username") (db c') = Ok None ->
  truthy (prop (body c') "isFirstUser") = false ->
  exists needs role,
    authSetup c = (Ok (Answered 200 (Object {[ "needsSetup" := JBool needs ]})),
                   logged CallGetAllUsers c)
    /\ calls (snd (signup c'))
       = (calls c' ++ [CallGetUserByUsername (prop (body c') "username");
                       CallGetAllUsers;
                       CallCreateUser (signupFields (body c') role)])%list
    /\ (needs = true <-> role = JStr "admin").
Proof.
  intros Hall Hdb Hc Hget Hflag.
  exists (Nat.eqb (length l) 0),
         (assignRole (length l) (prop (body c') "isFirstUser")).
  split; [| split].
  - open_routes. now rewrite Hall.
  - rewrite <- Hdb in Hall. apply (signup_run_calls c' l Hc Hget Hall).
  - unfold assignRole. rewrite Hflag.
    destruct (Nat.eqb (length l) 0); cbn; split; congruence.
Qed.

(** X16: [POST /api/users]: a body the schema rejects is answered 500 "Failed
    to create user" with nothing asked of the store; a body it accepts is
    handed to [createUser] exactly as validated, the password among the
    rest, and the created row comes back without its password. *)
Theorem createUserRoute_validates_then_stores c :
  (forall e,
     insertUserSchema_parse (body c) = Err e ->
     createUserRoute c
       = (Ok (Answered 500 (Reported (Message "Failed to create user"))), c))
  /\ (forall v,
        insertUserSchema_parse (body c) = Ok v ->
        calls (snd (createUserRoute c)) = (calls c ++ [CallCreateUser v])%list
        /\ (forall row d',
              createUser v (db c) = Ok (row, d') ->
              fst (createUserRoute c) = Ok (Answered 200 (Object (withoutPassword row)))
              /\ db (snd (createUserRoute c)) = d')
        /\ (forall e,
              createUser v (db c) = Err e ->
              fst (createUserRoute c)
                = Ok (Answered 500 (Reported (Message "Failed to create user")))
              /\ db (snd (createUserRoute c)) = db c)).
Proof.
  split.
  - intros e He. open_routes. now rewrite He.
  - intros v Hv. open_routes. rewrite Hv. cbn.
    destruct (createUser v (db c)) as [[row d']|e] eqn:Hcreate; cbn.
    + split; [reflexivity |]. split.
      * intros ? ? [= <- <-]. now split.
      * intros ? [=].
    + split; [reflexivity |]. split.
      * intros ? ? [=].
      * intros ? _. now split.
Qed.

Lemma insert_forgets (b1 b2 : JsObj) k v :
  delete k b1 = delete k b2 -> <[k := v]> b1 = <[k := v]> b2.
Proof.
  intros Heq.
  rewrite <- (insert_delete_eq b1), <- (insert_delete_eq b2). now rewrite Heq.
Qed.

Ltac author_case Hdb Hs Hb :=
  open_routes; rewrite Hs;
  match goal with
  | |- context [session ?c] => destruct (session c)
  end; cbn; [| split; congruence];
  unfold spread_then;
  match goal with
  | s : Session |- _ => rewrite (insert_forgets _ _ _ (userId s) Hb)
  end;
  rewrite ?Hdb; repeat case_match; simplify_eq; cbn; split; congruence.

Ltac stamped_run Hs Hparse Hcreate :=
  open_routes; rewrite Hs; cbn;
  unfold spread_then in *; rewrite Hparse; cbn; rewrite Hcreate; cbn;
  repeat split.

Ltac stamped_case :=
  let s := fresh "s" in
  let Hs := fresh "Hs" in
  let Hparse := fresh "Hparse" in
  let Hcreate := fresh "Hcreate" in
  intros s Hs; split;
  [unfold prop, spread_then; now rewrite lookup_insert_eq |];
  split;
  [ intros ? Hparse; open_routes; rewrite Hs; cbn;
    unfold spread_then in *; now rewrite Hparse
  | intros ? Hparse; split;
    [ intros ? ? Hcreate; stamped_run Hs Hparse Hcreate
    | intros ? Hcreate; stamped_run Hs Hparse Hcreate ] ].

(** X17: who created a record is taken from the session, never from the
    client.  Two requests on the same store and session whose bodies differ
    at most in [createdBy] get the same answer and leave the same store
    from [POST /api/patients] and [POST /api/appointments], and likewise
    for [administeredBy] and [POST /api/vaccinations].  And the session's
    user id is what reaches the schema and, through it, the store: each
    of the three routes hands its schema the body with that property set
    to the session's user id, answers 500 and stores nothing when the
    schema refuses, and otherwise asks the store to create exactly what
    the schema returned and answers with the created row. *)
Theorem author_comes_from_session (c1 c2 : Ctx S T) :
  (db c1 = db c2 ->
   session c1 = session c2 ->
   (delete "createdBy" (body c1) = delete "createdBy" (body c2) ->
    (fst (createPatientRoute c1) = fst (createPatientRoute c2)
     /\ db (snd (createPatientRoute c1)) = db (snd (createPatientRoute c2)))
    /\ (fst (createAppointmentRoute c1) = fst (createAppointmentRoute c2)
        /\ db (snd (createAppointmentRoute c1)) = db (snd (createAppointmentRoute c2))))
   /\ (delete "administeredBy" (body c1) = delete "administeredBy" (body c2) ->
       fst (createVaccinationRoute c1) = fst (createVaccinationRoute c2)
       /\ db (snd (createVaccinationRoute c1)) = db (snd (createVaccinationRoute c2))))
  /\ stamped_create "createdBy" insertPatientSchema_parse createPatient
       "Failed to create patient" createPatientRoute c1
  /\ stamped_create "administeredBy" insertVaccinationSchema_parse createVaccination
       "Failed to create vaccination" createVaccinationRoute c1
  /\ stamped_create "createdBy" insertAppointmentSchema_parse createAppointment
       "Failed to create appointment" createAppointmentRoute c1.
Proof.
  split; [| split; [| split]].
  - intros Hdb Hs. split; [intros Hb; split | intros Hb];
      author_case Hdb Hs Hb.
  - stamped_case.
  - stamped_case.
  - stamped_case.
Qed.

(** X18: the dashboard answer is the vaccination statistics with
    [totalPatients] added: every property of the statistics is in the
    answer as it was, so statistics that carry a [totalPatients] of their
    own keep it, and otherwise [totalPatients] is the number of rows
    [getAllPatients(1000, 0)] returned. *)
Theorem dashboard_total c l stats :
  getAllPatients (number 1000) (number 0) (db c) = Ok l ->
  getVaccinationStats (db c) = Ok stats ->
  exists o,
    dashboardStats c = (Ok (Answered 200 (Object o)), c)
    /\ (forall k v, stats !! k = Some v -> o !! k = Some v)
    /\ (stats !! "totalPatients" = None ->
        o !! "totalPatients" = Some (JNum (Z.of_nat (length l))))
    /\ (forall k, k <> "totalPatients" -> o !! k = stats !! k).
Proof.
  intros Hl Hstats.
  exists (then_spread "totalPatients" (JNum (Z.of_nat (length l))) stats).
  split; [open_routes; now rewrite Hl, Hstats |].
  unfold then_spread. split; [| split].
  - intros k v Hk. now apply lookup_union_Some_l.
  - intros Hnone. rewrite lookup_union_r by exact Hnone.
    apply lookup_singleton_eq.
  - intros k Hk. rewrite lookup_union.
    rewrite lookup_singleton_ne by congruence.
    now destruct (stats !! k).
Qed.

End RouteFacts.

(** ** The QR symbol *)

Section QrFacts.

Import QrCode.
Local Open Scope nat_scope.

Lemma hash_of_residue (a i j : nat) : (a + i + j) mod 3 = (a mod 3 + i + j) mod 3.
Proof.
  rewrite <- !Nat.add_assoc. now rewrite Nat.Div0.add_mod_idemp_l.
Qed.

Lemma Forall2_nth_residue (d1 d2 : list nat) :
  Forall2 (fun a b => a mod 3 = b mod 3) d1 d2 ->
  forall k, k < length d1 -> nth k d1 0 mod 3 = nth k d2 0 mod 3.
Proof.
  induction 1 as [|a b d1 d2 Hab _ IH]; intros k Hk; cbn in *; [lia |].
  destruct k as [|k]; [exact Hab | apply IH; lia].
Qed.

Lemma cell_congruent (d1 d2 : list nat) i j :
  Forall2 (fun a b => a mod 3 = b mod 3) d1 d2 ->
  cell d1 i j = cell d2 i j.
Proof.
  intros Hd. pose proof (Forall2_length _ _ _ Hd) as Hlen.
  destruct Hd as [|a b d1 d2 Hab Hd]; [reflexivity |].
  unfold cell, hash. rewrite <- Hlen.
  rewrite (hash_of_residue (nth _ (a :: d1) 0)),
          (hash_of_residue (nth _ (b :: d2) 0)).
  rewrite (Forall2_nth_residue (a :: d1) (b :: d2));
    [reflexivity | now constructor |].
  apply Nat.mod_upper_bound. cbn. lia.
Qed.

(** X20: the symbol is not an encoding of its payload: payloads of the same
    length whose code units agree modulo 3, position by position, are drawn
    as the same pattern. *)
Theorem pattern_congruent (d1 d2 : list nat) :
  Forall2 (fun a b => a mod 3 = b mod 3) d1 d2 ->
  pattern d1 = pattern d2.
Proof.
  intros Hd. unfold pattern.
  apply map_ext. intros i. apply map_ext. intros j.
  now apply cell_congruent.
Qed.

Lemma cell_reads_prefix (d : list nat) i j :
  i < gridSize -> j < gridSize -> gridSize * gridSize <= length d ->
  cell d i j = (0 <? (nth (i * gridSize + j) (firstn (gridSize * gridSize) d) 0 + i + j) mod 3).
Proof.
  unfold gridSize. intros Hi Hj Hlen.
  assert (Hk : i * 25 + j < 25 * 25) by nia.
  unfold cell, hash, gridSize.
  destruct d as [|a d]; [cbn in Hlen; lia |].
  rewrite (Nat.mod_small (i * 25 + j)) by lia.
  now rewrite nth_firstn, (proj2 (Nat.ltb_lt _ _) Hk).
Qed.

(** X21: only the first 625 code units of a payload are ever read: two payloads
    of at least that length that agree on them are drawn as the same
    pattern, whatever follows. *)
Theorem pattern_reads_625 (d1 d2 : list nat) :
  625 <= length d1 -> 625 <= length d2 ->
  firstn 625 d1 = firstn 625 d2 ->
  pattern d1 = pattern d2.
Proof.
  intros H1 H2 Hpre. unfold pattern.
  apply map_ext_in. intros i Hi. apply map_ext_in. intros j Hj.
  apply in_seq in Hi, Hj.
  rewrite !cell_reads_prefix by (unfold gridSize in *; lia).
  change (gridSize * gridSize) with 625. now rewrite Hpre.
Qed.

End QrFacts.

(** ** The routes on concrete requests *)

(** "alice" signs up into the empty store. *)
Lemma signup_succeeds_iff_witness :
  exists row,
    fst (signup (anonymous MemStorage.empty (signupBody "alice" "pw" "Alice")))
      = Ok (Sent 200 (UserEnvelope (withoutPassword row)))
    /\ prop row "id" = JNum 1.
Proof.
  destruct (signup_succeeds_iff
              (anonymous MemStorage.empty (signupBody "alice" "pw" "Alice"))
              (Message "")) as [_ Hback].
  eexists. split.
  - eapply (Hback []); reflexivity.
  - vm_compute. reflexivity.
Defined.

Lemma signup_rejection_is_clean_witness :
  db (snd (signup (anonymous (storeOf staff) (signupBody "asha" "pw2" "Asha"))))
    = storeOf staff.
Proof.
  destruct (signup_rejection_is_clean
              (anonymous (storeOf staff) (signupBody "asha" "pw2" "Asha"))
              (Message "Username already exists")) as (Hdb & _).
  - vm_compute. reflexivity.
  - exact Hdb.
Defined.

(** A signup that finds no session on the request: 500, and the row is in
    the store. *)
Lemma signup_store_effect_witness :
  fst (signup (Clinic.withoutSession (signupBody "alice" "pw" "Alice")))
    = Ok (Sent 500 (Message "Signup failed"))
  /\ length (MemStorage.rows
               (db (snd (signup (Clinic.withoutSession
                                   (signupBody "alice" "pw" "Alice")))))) = 1%nat.
Proof.
  destruct (signup_store_effect
              (Clinic.withoutSession (signupBody "alice" "pw" "Alice")))
    as [_ Hedge].
  edestruct Hedge as [Hreply Hdb]; try reflexivity.
  split; [exact Hreply | now rewrite Hdb].
Defined.

Lemma login_succeeds_iff_witness :
  fst (login (anonymous (storeOf staff) (loginBody "asha" "pw")))
    = Ok (Sent 200 (UserEnvelope (withoutPassword asha))).
Proof.
  destruct (login_succeeds_iff
              (anonymous (storeOf staff) (loginBody "asha" "pw"))
              (Message "")) as [_ Hback].
  eapply Hback; reflexivity.
Defined.

Lemma login_never_writes_witness :
  db (snd (login (anonymous (storeOf staff) (loginBody "asha" "guess"))))
    = storeOf staff
  /\ sessions (snd (login (anonymous (storeOf staff) (loginBody "asha" "guess"))))
     = sessions (anonymous (storeOf staff) (loginBody "asha" "guess")).
Proof.
  destruct (login_never_writes
              (anonymous (storeOf staff) (loginBody "asha" "guess")))
    as (Hdb & _ & Hrest).
  split; [exact Hdb |].
  apply Hrest. intros p. vm_compute. discriminate.
Defined.

(** Logging out while the session store is broken. *)
Lemma logout_outcomes_witness :
  fst (logout (request staff 7 true ∅)) = Ok (Sent 500 (Message "Logout failed"))
  /\ session (snd (logout (request staff 7 true ∅))) = None.
Proof.
  destruct (logout_outcomes (request staff 7 true ∅)) as [_ Hrun].
  edestruct Hrun as (Hreply & Hsession & _); try reflexivity.
  split; [exact Hreply | exact Hsession].
Defined.

Lemma serve_anonymous_witness :
  serve (GetPatient (JStr "7")) (Clinic.anonymous ∅)
    = (Ok (Answered 401 (Reported (Message "Unauthorized"))), Clinic.anonymous ∅).
Proof.
  apply serve_anonymous; [discriminate | reflexivity].
Defined.

(** The store is down: the error of the gate's lookup is what leaves the
    patient list route. *)
Lemma serve_error_only_from_gate_witness :
  fst (serve (GetPatients JUndefined JUndefined) (Clinic.duringOutage 7))
    = Err (StoreError "connection refused")
  /\ getUser (JNum 7) (db (Clinic.duringOutage 7))
     = Err (StoreError "connection refused").
Proof.
  assert (Herr : fst (serve (GetPatients JUndefined JUndefined) (Clinic.duringOutage 7))
                 = Err (StoreError "connection refused"))
    by (vm_compute; reflexivity).
  split; [exact Herr |].
  apply (serve_error_only_from_gate _ _ _ Herr).
Defined.

(** User 7 asks for a patient that does not exist: 404, and the theorem
    yields the active row behind the session. *)
Lemma serve_access_control_witness :
  fst (serve (GetPatient (JStr "1")) (Clinic.request 7 ∅))
    = Ok (Answered 404 (Reported (Message "Patient not found")))
  /\ exists u, getUser (JNum 7) (db (Clinic.request 7 ∅)) = Ok (Some u)
               /\ truthy (prop u "isActive") = true.
Proof.
  assert (Hok : fst (serve (GetPatient (JStr "1")) (Clinic.request 7 ∅))
                = Ok (Answered 404 (Reported (Message "Patient not found"))))
    by (vm_compute; reflexivity).
  split; [exact Hok |].
  apply (serve_access_control _ _ _ Hok); [reflexivity | discriminate].
Defined.

(** User 7 registers a patient. *)
Lemma serve_write_needs_access_witness :
  exists u, getUser (JNum 7) (db (Clinic.request 7 (Clinic.patientBody "Lakshmi" 7)))
              = Ok (Some u)
            /\ truthy (prop u "isActive") = true.
Proof.
  apply (serve_write_needs_access PostPatients
           (Clinic.request 7 (Clinic.patientBody "Lakshmi" 7))).
  intros Heq. apply (f_equal (fun d => length (Clinic.patients d))) in Heq.
  vm_compute in Heq. discriminate Heq.
Defined.

(** The administrator lists the users. *)
Lemma answers_withhold_password_witness :
  exists a,
    fst (serve GetUsers (Clinic.request 1 ∅)) = Ok a
    /\ length (rows_of a) = 4%nat
    /\ Forall (fun o : JsObj => o !! "password" = None) (rows_of a).
Proof.
  destruct (answers_withhold_password (Clinic.request 1 ∅)) as [Hroutes _].
  destruct (fst (serve GetUsers (Clinic.request 1 ∅))) as [a|e] eqn:Hok;
    [| vm_compute in Hok; discriminate Hok].
  exists a. split; [reflexivity |]. split.
  - revert Hok. vm_compute. intros [= <-]. reflexivity.
  - apply (Hroutes GetUsers a); [reflexivity | exact Hok].
Defined.

(** User 7 asks who they are: two lookups.  The handler alone, under a
    session naming the deactivated user 42, answers with that user's
    row. *)
Lemma authUser_behind_gate_witness :
  calls (snd (serve GetAuthUser (Clinic.request 7 ∅)))
    = [CallGetUser (JNum 7); CallGetUser (JNum 7)]
  /\ fst (authUser (Clinic.request 42 ∅))
     = Ok (Answered 200 (Object (withoutPassword ravi))).
Proof.
  split.
  - destruct (authUser_behind_gate (Clinic.request 7 ∅)) as [Hgate _].
    destruct (Hgate (Answered 200 (Object (withoutPassword asha))))
      as (row & u & _ & _ & _ & _ & Hcalls);
      [vm_compute; reflexivity | reflexivity | exact Hcalls].
  - destruct (authUser_behind_gate (Clinic.request 42 ∅)) as [_ Hhandler].
    destruct (Hhandler {| userId := JNum 42 |} eq_refl) as (Hrow & _).
    apply Hrow. vm_compute. reflexivity.
Defined.

(** The deactivated user 42 under [server/routes.ts]: the handler runs. *)
Lemma registrations_compared_witness :
  (exists m,
     serve_sessionOnly (GetPatient (JStr "1")) = Some m
     /\ m (Clinic.request 42 ∅)
        = handler_of (GetPatient (JStr "1")) (Clinic.request 42 ∅))
  /\ fst (serve (GetPatient (JStr "1")) (Clinic.request 42 ∅))
     = Ok (Answered 401 (Reported (Message "Unauthorized")))
  /\ (exists m,
        serve_sessionOnly (GetPatient (JStr "1")) = Some m
        /\ fst (m (Clinic.request 7 ∅))
           = fst (serve (GetPatient (JStr "1")) (Clinic.request 7 ∅))).
Proof.
  split; [| split].
  - destruct (registrations_compared (GetPatient (JStr "1")) (Clinic.request 42 ∅))
      as (m & Hm & Hrun & _); [reflexivity |].
    exists m. split; [exact Hm | apply Hrun; reflexivity].
  - vm_compute. reflexivity.
  - destruct (registrations_compared (GetPatient (JStr "1")) (Clinic.request 7 ∅))
      as (m & Hm & _ & Hsame); [reflexivity |].
    exists m. split; [exact Hm | apply Hsame; vm_compute; reflexivity].
Defined.

Lemma setup_announces_first_admin_witness :
  exists needs role,
    fst (authSetup (anonymous MemStorage.empty ∅))
      = Ok (Answered 200 (Object {[ "needsSetup" := JBool needs ]}))
    /\ needs = true /\ role = JStr "admin".
Proof.
  destruct (setup_announces_first_admin
              (anonymous MemStorage.empty ∅)
              (anonymous MemStorage.empty (signupBody "alice" "pw" "Alice")) [])
    as (needs & role & Hsetup & _ & Hiff); try reflexivity.
  exists needs, role. rewrite Hsetup. split; [reflexivity |].
  assert (Hneeds : needs = true).
  { revert Hsetup. vm_compute. intros [= Hs]. now symmetry. }
  split; [exact Hneeds | now apply Hiff].
Defined.

(** The administrator posts a user without a password. *)
Lemma createUserRoute_validates_then_stores_witness :
  fst (createUserRoute (Clinic.request 1 (loginBody "bala" "")))
    = Ok (Answered 500 (Reported (Message "Failed to create user")))
  /\ calls (snd (createUserRoute (Clinic.request 1 (loginBody "bala" "")))) = [].
Proof.
  destruct (createUserRoute_validates_then_stores
              (Clinic.request 1 (loginBody "bala" ""))) as [Hbad _].
  rewrite (Hbad (TypeError "ZodError")); [split; reflexivity | reflexivity].
Defined.

(** User 7 registers a patient and claims it was user 1 who did: the
    answer is the one for a truthful body, and the row that was stored
    names user 7. *)
Lemma author_comes_from_session_witness :
  fst (createPatientRoute (Clinic.request 7 (Clinic.patientBody "Lakshmi" 1)))
    = fst (createPatientRoute (Clinic.request 7 (Clinic.patientBody "Lakshmi" 7)))
  /\ exists row,
       fst (createPatientRoute (Clinic.request 7 (Clinic.patientBody "Lakshmi" 1)))
         = Ok (Answered 200 (Object row))
       /\ prop row "createdBy" = JNum 7.
Proof.
  destruct (author_comes_from_session
              (Clinic.request 7 (Clinic.patientBody "Lakshmi" 1))
              (Clinic.request 7 (Clinic.patientBody "Lakshmi" 7)))
    as (Hsame & Hpatient & _).
  split.
  - refine (proj1 (proj1 (proj1 (Hsame _ _) _)));
      [reflexivity | reflexivity | vm_compute; reflexivity].
  - destruct (Hpatient {| userId := JNum 7 |} eq_refl) as (_ & _ & Hstored).
    destruct (insertPatientSchema_parse
                (spread_then (Clinic.patientBody "Lakshmi" 1) "createdBy" (JNum 7)))
      as [v|e] eqn:Hparse; [| vm_compute in Hparse; discriminate Hparse].
    destruct (Hstored v Hparse) as [Hcreated _].
    destruct (createPatient v (db (Clinic.request 7 (Clinic.patientBody "Lakshmi" 1))))
      as [[row d']|e] eqn:Hcreate.
    + exists row. split; [apply (Hcreated row d' eq_refl) |].
      revert Hparse Hcreate. vm_compute. intros [= <-] [= <- _]. reflexivity.
    + revert Hparse Hcreate. vm_compute. intros [= <-]. discriminate.
Defined.

Lemma dashboard_total_witness :
  exists o,
    fst (dashboardStats (Clinic.request 7 ∅)) = Ok (Answered 200 (Object o))
    /\ o !! "totalPatients" = Some (JNum 0).
Proof.
  destruct (dashboard_total (Clinic.request 7 ∅) []
              (<["completed" := JNum 0]> (<["scheduled" := JNum 0]> ∅)))
    as (o & Hrun & _ & Htotal & _); try reflexivity.
  exists o. rewrite Hrun. split; [reflexivity |].
  apply Htotal. vm_compute. reflexivity.
Defined.

(** The identifiers "RH000001" and "RH000004" are drawn alike. *)
Lemma pattern_congruent_witness :
  QrCode.codes "RH000001" <> QrCode.codes "RH000004"
  /\ QrCode.pattern (QrCode.codes "RH000001") = QrCode.pattern (QrCode.codes "RH000004").
Proof.
  split; [vm_compute; discriminate |].
  apply pattern_congruent. vm_compute. repeat constructor.
Defined.

Lemma pattern_reads_625_witness :
  QrCode.pattern (repeat 65%nat 625 ++ [66%nat])%list
    = QrCode.pattern (repeat 65%nat 625 ++ [67%nat; 68%nat])%list.
Proof.
  apply pattern_reads_625.
  - rewrite length_app, repeat_length. cbn. lia.
  - rewrite length_app, repeat_length. cbn. lia.
  - vm_compute. reflexivity.
Defined.
